(** * DevDigest: the refresh pipeline of [src/app/api/refresh/route.js],
    the Content model of [models/Content.js] and the RSS/API helpers of
    [src/lib/contentAggregator.js], as a shallow embedding.

    Conventions of the embedding:
    - JavaScript strings are [String.string]; only ASCII is modelled, so
      [toLowerCase] and [trim] act on ASCII letters and ASCII white space.
    - An optional string property ([x?.y], a missing JSON key) is
      [option string]; JavaScript truthiness of a string is "present and
      non-empty", written [truthy].
    - Numbers that are integers in the code are [nat] or [Z]; the two
      fractional comparisons of the code ([n / 10] thresholds and
      [maxPosts * 0.6]) are done exactly, in [Q] or by cross-multiplication.
    - The MongoDB collection is a list of stored documents; the unique
      indexes declared by the schema are checked by [save]. *)

From Stdlib Require Import String Ascii List Bool Arith Lia ZArith QArith.
From Stdlib Require Import Qminmax Sorting.Sorted Sorting.Permutation.
Import ListNotations.
Open Scope string_scope.
Open Scope nat_scope.

(* ================================================================== *)
(** ** JavaScript string helpers *)

Module JS.

(** [String.prototype.toLowerCase] on ASCII. *)
Definition lower_char (c : ascii) : ascii :=
  let n := nat_of_ascii c in
  if (65 <=? n) && (n <=? 90) then ascii_of_nat (n + 32) else c.

Fixpoint toLowerCase (s : string) : string :=
  match s with
  | EmptyString => EmptyString
  | String c s' => String (lower_char c) (toLowerCase s')
  end.

(** [s.startsWith(p)] *)
Fixpoint startsWith (s p : string) : bool :=
  match p, s with
  | EmptyString, _ => true
  | String c p', String d s' => Ascii.eqb c d && startsWith s' p'
  | String _ _, EmptyString => false
  end.

(** [s.includes(p)]: [p] occurs at some position of [s]. *)
Fixpoint includes (s p : string) : bool :=
  startsWith s p ||
  match s with
  | EmptyString => false
  | String _ s' => includes s' p
  end.

(** ASCII white space as removed by [String.prototype.trim]. *)
Definition is_space (c : ascii) : bool :=
  let n := nat_of_ascii c in
  (n =? 32) || ((9 <=? n) && (n <=? 13)).

Fixpoint trimStart (s : string) : string :=
  match s with
  | EmptyString => EmptyString
  | String c s' => if is_space c then trimStart s' else s
  end.

Fixpoint rev_str (s : string) (acc : string) : string :=
  match s with
  | EmptyString => acc
  | String c s' => rev_str s' (String c acc)
  end.

Definition trimEnd (s : string) : string :=
  rev_str (trimStart (rev_str s EmptyString)) EmptyString.

Definition trim (s : string) : string := trimEnd (trimStart s).

(** [s.substring(0, n)] *)
Definition substring0 (s : string) (n : nat) : string := substring 0 n s.

(** [s.split(' ')]: pieces between single spaces, empty pieces kept. *)
Fixpoint split_space_aux (s : string) (cur : string) : list string :=
  match s with
  | EmptyString => [rev_str cur EmptyString]
  | String c s' =>
      if Ascii.eqb c " "%char then rev_str cur EmptyString :: split_space_aux s' EmptyString
      else split_space_aux s' (String c cur)
  end.

Definition split_space (s : string) : list string := split_space_aux s EmptyString.

(** JavaScript truthiness of an optional string. *)
Definition truthy (o : option string) : bool :=
  match o with
  | Some s => negb (String.eqb s EmptyString)
  | None => false
  end.

(** [a || b] on optional strings: the first truthy operand, else [b]. *)
Definition or_else (a b : option string) : option string :=
  if truthy a then a else b.

(** [o || d] with a string default [d]. *)
Definition or_default (o : option string) (d : string) : string :=
  match o with
  | Some s => if String.eqb s EmptyString then d else s
  | None => d
  end.

(** [o?.length || 0] *)
Definition opt_length (o : option string) : nat :=
  match o with Some s => String.length s | None => 0 end.

End JS.

Import JS.

(* ================================================================== *)
(** ** The Content model and its collection ([models/Content.js]) *)

Module Store.

(** A JavaScript [Date]: the current time ([new Date()]), a time value in
    milliseconds, or an Invalid Date. *)
Inductive date := Now | At (t : Z) | Invalid.

(** [new Date(ms)] for a number: TimeClip keeps [|ms| <= 8.64e15]. *)
Definition date_of_ms (ms : Z) : date :=
  if (Z.abs ms <=? 8640000000000000)%Z then At ms else Invalid.

(** [new Date(s)] for a string, from the value of [Date.parse(s)] ([None]
    is [NaN]). *)
Definition date_of_parse (t : option Z) : date :=
  match t with Some ms => At ms | None => Invalid end.

(** [Math.ceil(n / 200)] for a length [n]. *)
Definition ceil_div200 (n : nat) : nat := (n + 199) / 200.

(** A stored document; the paths that the pipeline writes and that the
    schema validates.  [c_content] is [content] ([None]: [null]),
    [c_hash] is [contentHash], set by the pre-save hook.  The other paths
    the pipeline sets ([sentiment], [difficulty], [quality] with valid
    enum values, [technologies], [keyInsights], [isProcessed] and the
    [metadata] of strings and numbers) pass validation whatever the
    input. *)
Record content := mkContent {
  c_title : string;
  c_url : string;
  c_summary : string;
  c_source : string;
  c_category : string;
  c_publishedAt : date;
  c_content : option string;
  c_readingTime : nat;
  c_hash : option string
}.

Definition store := list content.

Inductive save_error := ValidationError | DuplicateKeyError.

Section Save.

(** [crypto.createHash('md5').update(s).digest('hex')]: a function of its
    input; nothing more about it is used. *)
Variable md5 : string -> string.

(** [new Content({...})]: the [trim: true] setters of the schema. *)
Definition new_content (title url summary source category : string) (publishedAt : date)
    (body : option string) (readingTime : nat) : content :=
  {| c_title := trim title; c_url := trim url; c_summary := trim summary;
     c_source := trim source; c_category := trim category; c_publishedAt := publishedAt;
     c_content := option_map trim body; c_readingTime := readingTime; c_hash := None |}.

(** The [String] paths: [required] rejects the empty string, [maxlength]
    bounds title (500) and summary (1000). *)
Definition valid_fields (d : content) : bool :=
  negb (String.eqb (c_title d) "") && (String.length (c_title d) <=? 500) &&
  negb (String.eqb (c_url d) "") &&
  negb (String.eqb (c_summary d) "") && (String.length (c_summary d) <=? 1000) &&
  negb (String.eqb (c_source d) "") && negb (String.eqb (c_category d) "").

(** [publishedAt]: a required [Date]; an Invalid Date fails the cast. *)
Definition valid_date (x : date) : bool :=
  match x with Invalid => false | _ => true end.

(** [content]: maxlength 50000, not checked on [null]. *)
Definition valid_body (o : option string) : bool :=
  match o with Some c => String.length c <=? 50000 | None => true end.

(** [readingTime]: a Number with min 1 and max 120. *)
Definition valid_readingTime (n : nat) : bool := (1 <=? n) && (n <=? 120).

(** Schema validation of a new document. *)
Definition validate (d : content) : bool :=
  valid_fields d && valid_date (c_publishedAt d) && valid_body (c_content d) &&
  valid_readingTime (c_readingTime d).

(** [contentSchema.pre('save')]: for a new document [title] and [url] are
    modified paths, so the hash of [title + url] is always stamped. *)
Definition pre_save (d : content) : content :=
  {| c_title := c_title d; c_url := c_url d; c_summary := c_summary d;
     c_source := c_source d; c_category := c_category d; c_publishedAt := c_publishedAt d;
     c_content := c_content d; c_readingTime := c_readingTime d;
     c_hash := Some (md5 (c_title d ++ c_url d)) |}.

Definition opt_string_eqb (a b : option string) : bool :=
  match a, b with
  | Some x, Some y => String.eqb x y
  | _, _ => false
  end.

(** The two unique indexes: [url] ([unique: true]) and [contentHash]
    ([unique: true, sparse: true]: documents without a hash are not
    indexed, which [opt_string_eqb] reflects). *)
Definition violates_unique (st : store) (d : content) : bool :=
  existsb (fun e => String.eqb (c_url e) (c_url d)) st ||
  existsb (fun e => opt_string_eqb (c_hash e) (c_hash d)) st.

(** [await content.save()]: validate, run the hook, insert or raise. *)
Definition save (st : store) (d : content) : store + save_error :=
  if negb (validate d) then inr ValidationError
  else
    let d' := pre_save d in
    if violates_unique st d' then inr DuplicateKeyError
    else inl (d' :: st).

(** [Content.findOne({ url })] is non-null. *)
Definition findByUrl (st : store) (url : string) : bool :=
  existsb (fun e => String.eqb (c_url e) url) st.

(** A sequence of saves from an empty collection, failed saves ignored. *)
Fixpoint save_all (st : store) (ds : list content) : store :=
  match ds with
  | [] => st
  | d :: ds' =>
      match save st d with
      | inl st' => save_all st' ds'
      | inr _ => save_all st ds'
      end
  end.

End Save.

Definition urls (st : store) : list string := map c_url st.

End Store.

Import Store.

(* ================================================================== *)
(** ** Sources and fetch strategies ([models/Source.js], route.js) *)

Module Pipeline.

(** [source.filters]: absent keyword arrays are the empty list, an absent
    [minWordCount] is [None]. *)
Record filters := mkFilters {
  f_includeKeywords : list string;
  f_excludeKeywords : list string;
  f_minWordCount : option Z
}.

(** The enum of [sourceSchema.type]. *)
Inductive stype := Reddit | Rss | Api | Manual.

Record source := mkSource {
  s_name : string;
  s_type : stype;
  s_category : string;
  s_filters : filters;
  s_sortBy : option string;       (* config.sortBy *)
  s_timeFilter : option string    (* config.timeFilter *)
}.

(** A Reddit exploration strategy. *)
Record strategy := mkStrategy {
  sortBy : string;
  timeFilter : string;
  limit : nat;
  description : string
}.

(** [explorationStrategies] of [fetchRedditContent] (route.js). *)
Definition reddit_strategies (src : source) (maxPosts : nat) : list strategy :=
  [ mkStrategy (or_default (s_sortBy src) "hot") (or_default (s_timeFilter src) "day")
               maxPosts "primary configured strategy";
    mkStrategy "top" "week" (Nat.min (maxPosts * 2) 100) "top weekly posts (deeper content)";
    mkStrategy "top" "month" (Nat.min (maxPosts * 3) 150) "top monthly posts (historical content)";
    mkStrategy "new" "day" maxPosts "new posts from today";
    mkStrategy "rising" "day" maxPosts "rising posts from today" ].

(** [post.data] of a Reddit listing child. *)
Record post := mkPost {
  p_title : string;
  p_selftext : option string;
  p_url : string;
  p_created_utc : Z;
  p_score : Z
}.

(** An item of the route's [parseRSSXML]. *)
Record rss_item := mkRssItem {
  r_title : string;
  r_link : string;
  r_description : string;
  r_pubDate : date
}.

(** An element of a generic API array: its string-valued properties, and
    [new Date(item.publishedAt)] when [item.publishedAt] is truthy. *)
Record api_item := mkApiItem {
  a_title : option string;
  a_url : option string;
  a_description : option string;
  a_summary : option string;
  a_content : option string;
  a_publishedAt : option date
}.

(** A Hacker News item detail ([item/<id>.json]); [h_time] is [time]. *)
Record hn_story := mkHnStory {
  h_title : option string;
  h_url : option string;
  h_score : Z;
  h_time : option Z
}.

(** [totalWords < minRequired] with [minRequired = Math.max(lo, m / d)],
    in exact rational arithmetic. *)
Definition below_min (total : nat) (lo m d : Z) : bool :=
  negb (Qle_bool (Qmax (inject_Z lo) (inject_Z m / inject_Z d)) (inject_Z (Z.of_nat total))).

(** [if (source.filters?.minWordCount) { ... }]: the check passes when the
    threshold is absent or 0 (falsy). *)
Definition word_count_ok (f : filters) (total : nat) (lo d : Z) : bool :=
  match f_minWordCount f with
  | Some m => if Z.eqb m 0 then true else negb (below_min total lo m d)
  | None => true
  end.

Definition has_keyword (text : string) (ks : list string) : bool :=
  existsb (fun k => includes text (toLowerCase k)) ks.

(** [keyword.toLowerCase().split(' ').some(part => text.includes(part))] *)
Definition partial_match (text : string) (ks : list string) : bool :=
  existsb (fun k => existsb (fun part => includes text part) (split_space (toLowerCase k))) ks.

Definition placeholder : string := "No description available".

(** *** processRedditPostsWithStrategy: filters and the new document *)

Definition is_top_month (s : strategy) : bool :=
  String.eqb (sortBy s) "top" && String.eqb (timeFilter s) "month".

Definition reddit_min_ok (f : filters) (s : strategy) (p : post) : bool :=
  let totalWords := String.length (p_title p) + opt_length (p_selftext p) in
  if is_top_month s then word_count_ok f totalWords 15 20
  else word_count_ok f totalWords 20 10.

Definition reddit_should_include (f : filters) (s : strategy) (p : post) : bool :=
  let text := toLowerCase (p_title p ++ " " ++ or_default (p_selftext p) "") in
  let inc_ok :=
    match f_includeKeywords f with
    | [] => true
    | ks =>
        has_keyword text ks ||
        (if String.eqb (sortBy s) "top" &&
            (String.eqb (timeFilter s) "week" || String.eqb (timeFilter s) "month")
         then partial_match text ks else false)
    end in
  let exc_ok := negb (has_keyword text (f_excludeKeywords f)) in
  reddit_min_ok f s p && inc_ok && exc_ok.

(** [postData.selftext?.substring(0, 500) || 'No description available'] *)
Definition reddit_summary (p : post) : string :=
  or_default (option_map (fun t => substring0 t 500) (p_selftext p)) placeholder.

(** [content: postData.selftext || null] *)
Definition reddit_body (p : post) : option string :=
  if truthy (p_selftext p) then p_selftext p else None.

(** The [new Content({...})] of a Reddit post, with [publishedAt: new
    Date(postData.created_utc * 1000)] and [readingTime: Math.ceil(
    (postData.title.length + (postData.selftext?.length || 0)) / 200)]. *)
Definition reddit_content (src : source) (p : post) : content :=
  new_content (p_title p) (p_url p) (reddit_summary p) (s_name src) (s_category src)
    (date_of_ms (p_created_utc p * 1000)) (reddit_body p)
    (ceil_div200 (String.length (p_title p) + opt_length (p_selftext p))).

Definition reddit_mk (src : source) (s : strategy) (p : post) : option content :=
  if reddit_should_include (s_filters src) s p then Some (reddit_content src p) else None.

(** *** processRSSItemsWithStrategy *)

(** [item.description?.substring(0, 500) || 'No description available'] *)
Definition rss_description (it : rss_item) : string :=
  or_default (Some (substring0 (r_description it) 500)) placeholder.

Definition rss_should_include (f : filters) (it : rss_item) : bool :=
  let description := rss_description it in
  let text := toLowerCase (r_title it ++ " " ++ description) in
  let inc_ok :=
    match f_includeKeywords f with
    | [] => true
    | ks => has_keyword text ks || partial_match text ks
    end in
  word_count_ok f (String.length (r_title it) + String.length description) 15 15 &&
  inc_ok && negb (has_keyword text (f_excludeKeywords f)).

Definition rss_mk (src : source) (it : rss_item) : option content :=
  if rss_should_include (s_filters src) it then
    Some (new_content (r_title it) (r_link it) (rss_description it) (s_name src) (s_category src)
            (r_pubDate it) None
            (ceil_div200 (String.length (r_title it) + String.length (rss_description it))))
  else None.

(** *** processAPIItemsWithStrategy *)

Definition api_should_include (f : filters) (it : api_item) : bool :=
  let text := toLowerCase (or_default (a_title it) "" ++ " " ++ or_default (a_description it) "") in
  let inc_ok :=
    match f_includeKeywords f with
    | [] => true
    | ks => has_keyword text ks || partial_match text ks
    end in
  word_count_ok f (opt_length (a_title it) + opt_length (a_description it)) 15 15 &&
  inc_ok && negb (has_keyword text (f_excludeKeywords f)).

(** [item.description || item.summary || 'No description available'] *)
Definition api_summary (it : api_item) : string :=
  or_default (or_else (a_description it) (a_summary it)) placeholder.

(** With [publishedAt: item.publishedAt ? new Date(item.publishedAt) :
    new Date()], [content: item.content || null] and [readingTime:
    Math.ceil((item.title.length + (item.description?.length || 0)) / 200)]. *)
Definition api_mk (src : source) (it : api_item) : option content :=
  if truthy (a_title it) && truthy (a_url it) && api_should_include (s_filters src) it then
    Some (new_content (or_default (a_title it) "") (or_default (a_url it) "")
                      (api_summary it) (s_name src) (s_category src)
                      (match a_publishedAt it with Some x => x | None => Now end)
                      (if truthy (a_content it) then a_content it else None)
                      (ceil_div200 (opt_length (a_title it) + opt_length (a_description it))))
  else None.

(** *** processHNStoriesWithStrategy *)

Fixpoint digits_aux (fuel n : nat) (acc : string) : string :=
  match fuel with
  | O => acc
  | S fuel' =>
      let acc' := String (ascii_of_nat (48 + n mod 10)) acc in
      if n <? 10 then acc' else digits_aux fuel' (n / 10) acc'
  end.

(** [String(n)] for an integer. *)
Definition string_of_Z (z : Z) : string :=
  let n := Z.to_nat (Z.abs z) in
  (if (z <? 0)%Z then "-" else "") ++ digits_aux (S n) n "".

(** A [None] story is a detail fetch that failed (skipped by [continue]
    or by the [catch]).  [publishedAt: new Date(story.time * 1000)] is an
    Invalid Date without [time]; [readingTime: Math.ceil(
    story.title.length / 200)]. *)
Definition hn_mk (src : source) (desc : string) (o : option hn_story) : option content :=
  match o with
  | Some h =>
      if truthy (h_url h) && truthy (h_title h) then
        Some (new_content (or_default (h_title h) "") (or_default (h_url h) "")
                ("Hacker News " ++ desc ++ " with " ++ string_of_Z (h_score h) ++ " points")
                (s_name src) (s_category src)
                (match h_time h with Some t => date_of_ms (t * 1000) | None => Invalid end)
                None (ceil_div200 (opt_length (h_title h))))
      else None
  | None => None
  end.

End Pipeline.

Import Pipeline.

(* ================================================================== *)
(** ** Batches, strategies and the refresh orchestrator (route.js) *)

Module Refresh.

(** *** Processing order of a Reddit batch *)

(** The sort key of the comparator of [processRedditPostsWithStrategy]:
    [b.key - a.key], i.e. descending by [key]. *)
Definition sort_key (s : strategy) (p : post) : Z :=
  if String.eqb (sortBy s) "new" || String.eqb (sortBy s) "rising" then p_created_utc p
  else if String.eqb (sortBy s) "top" then p_score p
  else p_score p.   (* hot posts by score *)

(** [Array.prototype.sort] is stable: an element is placed after every
    element whose key is not smaller. *)
Fixpoint insert_desc {A} (key : A -> Z) (x : A) (l : list A) : list A :=
  match l with
  | [] => [x]
  | y :: l' => if (key y <? key x)%Z then x :: l else y :: insert_desc key x l'
  end.

Definition sort_desc {A} (key : A -> Z) (l : list A) : list A :=
  fold_left (fun acc x => insert_desc key x acc) l [].

Definition sort_posts (s : strategy) (posts : list post) : list post :=
  sort_desc (sort_key s) posts.

Section Run.

Variable md5 : string -> string.

(** *** The per-item loop shared by the [process*WithStrategy] functions

    [url_of] is the URL given to [Content.findOne], [mk] the filters and
    the construction of the document ([None]: filtered out or missing
    fields).  A failing [save] is caught and not counted. *)
Fixpoint process_batch {A} (url_of : A -> option string) (mk : A -> option content)
    (forceRefresh : bool) (targetPosts fetchedCount : nat) (st : store) (items : list A)
    : nat * store :=
  match items with
  | [] => (fetchedCount, st)
  | it :: rest =>
      if targetPosts <=? fetchedCount then (fetchedCount, st)
      else
        let existing := match url_of it with Some u => findByUrl st u | None => false end in
        if existing && negb forceRefresh
        then process_batch url_of mk forceRefresh targetPosts fetchedCount st rest
        else
          match mk it with
          | None => process_batch url_of mk forceRefresh targetPosts fetchedCount st rest
          | Some d =>
              match save md5 st d with
              | inl st' => process_batch url_of mk forceRefresh targetPosts (S fetchedCount) st' rest
              | inr _ => process_batch url_of mk forceRefresh targetPosts fetchedCount st rest
              end
          end
  end.

(** *** The progressive strategy loop

    Each strategy comes with the outcome of its fetch: [None] when the
    request failed, the response was not usable or the strategy threw
    (all caught, zero yield), [Some b] for a batch [b].  [run s remaining
    st b] is the strategy's processing of [b].  The result is
    [totalFetched], the yields of the strategies that were attempted, and
    the collection. *)
Fixpoint run_strategies {S B} (run : S -> nat -> store -> B -> nat * store)
    (maxPosts totalFetched : nat) (st : store) (strats : list (S * option B))
    : nat * list nat * store :=
  match strats with
  | [] => (totalFetched, [], st)
  | (s, ob) :: rest =>
      if totalFetched <? maxPosts then
        let '(y, st') :=
          match ob with
          | None => (0, st)
          | Some b => run s (maxPosts - totalFetched) st b
          end in
        if 0 <? y then
          (* [y >= maxPosts * 0.6], exactly *)
          if 3 * maxPosts <=? 5 * y then (totalFetched + y, [y], st')
          else
            let '(t, ys, st'') := run_strategies run maxPosts (totalFetched + y) st' rest in
            (t, y :: ys, st'')
        else
          let '(t, ys, st'') := run_strategies run maxPosts totalFetched st' rest in
          (t, 0 :: ys, st'')
      else (totalFetched, [], st)
  end.

(** Pairs the strategies with the fetch outcomes; a missing outcome is a
    failed fetch. *)
Fixpoint attach {S B} (ss : list S) (os : list (option B)) : list (S * option B) :=
  match ss, os with
  | [], _ => []
  | s :: ss', [] => (s, None) :: attach ss' []
  | s :: ss', o :: os' => (s, o) :: attach ss' os'
  end.

(** *** The three fetchers *)

Definition fetchRedditContent (src : source) (maxPosts : nat) (forceRefresh : bool)
    (st : store) (outs : list (option (list post))) : nat * list nat * store :=
  run_strategies
    (fun s target st0 posts =>
       process_batch (fun p => Some (p_url p)) (reddit_mk src s) forceRefresh target 0 st0
         (sort_posts s posts))
    maxPosts 0 st (attach (reddit_strategies src maxPosts) outs).

Definition rss_strategies : list string :=
  ["primary RSS endpoint"; "alternative User-Agent"; "minimal headers"].

(** RSS batches are the parsed items in processing order (newest first). *)
Definition fetchRSSContent (src : source) (maxPosts : nat) (forceRefresh : bool)
    (st : store) (outs : list (option (list rss_item))) : nat * list nat * store :=
  run_strategies
    (fun _ target st0 items =>
       process_batch (fun i => Some (r_link i)) (rss_mk src) forceRefresh target 0 st0 items)
    maxPosts 0 st (attach rss_strategies outs).

Definition api_strategies : list string :=
  ["primary API endpoint"; "increased limit"; "minimal parameters"].

(** Generic API batches are the response arrays in processing order. *)
Definition fetchGenericAPI (src : source) (maxPosts : nat) (forceRefresh : bool)
    (st : store) (outs : list (option (list api_item))) : nat * list nat * store :=
  run_strategies
    (fun _ target st0 items =>
       process_batch a_url (api_mk src) forceRefresh target 0 st0 items)
    maxPosts 0 st (attach api_strategies outs).

(** [hnStrategies]: endpoint description and [limit]. *)
Definition hn_strategies (maxPosts : nat) : list (string * nat) :=
  [("top stories", maxPosts); ("best stories", Nat.min (maxPosts * 2) 100);
   ("new stories", Nat.min (maxPosts * 2) 100)].

Definition fetchHackerNews (src : source) (maxPosts : nat) (forceRefresh : bool)
    (st : store) (outs : list (option (list (option hn_story)))) : nat * list nat * store :=
  run_strategies
    (fun '(desc, lim) target st0 stories =>
       process_batch (fun o => match o with Some h => h_url h | None => None end)
         (hn_mk src desc) forceRefresh target 0 st0 (firstn lim stories))
    maxPosts 0 st (attach (hn_strategies maxPosts) outs).

(** What the remote end answers to one source's requests. *)
Inductive remote :=
  | RThrows                                           (* the fetcher raises *)
  | RReddit (outs : list (option (list post)))
  | RRss (outs : list (option (list rss_item)))
  | RApi (outs : list (option (list api_item)))
  | RHn (outs : list (option (list (option hn_story)))).

(** [fetchSourceWithTimeout]: dispatch on [sourceType], any exception of
    the fetcher (here [RThrows], or answers of the wrong shape) gives
    [fetchedCount = 0]. *)
Definition fetchSourceWithTimeout (src : source) (ty : stype) (maxPosts : nat)
    (forceRefresh : bool) (st : store) (r : remote) : (nat * stype) * store :=
  let count_of (x : nat * list nat * store) := let '(n, _, st') := x in (n, st') in
  let '(n, st') :=
    match ty, r with
    | Reddit, RReddit outs => count_of (fetchRedditContent src maxPosts forceRefresh st outs)
    | Rss, RRss outs => count_of (fetchRSSContent src maxPosts forceRefresh st outs)
    | Api, RApi outs =>
        if String.eqb (s_name src) "Hacker News" then (0, st)
        else count_of (fetchGenericAPI src maxPosts forceRefresh st outs)
    | Api, RHn outs =>
        if String.eqb (s_name src) "Hacker News"
        then count_of (fetchHackerNews src maxPosts forceRefresh st outs) else (0, st)
    | _, _ => (0, st)
    end in
  ((n, ty), st').

End Run.

End Refresh.

Import Refresh.

(* ================================================================== *)
(** ** [POST] of route.js *)

Module Orchestrator.

Record stat := mkStat { processed : nat; success : nat; failed : nat; fetched : nat }.

(** [sourceStats]: an object with the keys [reddit], [rss], [api]. *)
Record source_stats := mkStats { st_reddit : stat; st_rss : stat; st_api : stat }.

Definition stat0 : stat := mkStat 0 0 0 0.
Definition stats0 : source_stats := mkStats stat0 stat0 stat0.

(** [sourceStats[t].x++]; for a type without a key ([manual]) the
    property read of [undefined] raises a TypeError ([None]). *)
Definition update_stat (t : stype) (g : stat -> stat) (ss : source_stats) : option source_stats :=
  match t with
  | Reddit => Some (mkStats (g (st_reddit ss)) (st_rss ss) (st_api ss))
  | Rss => Some (mkStats (st_reddit ss) (g (st_rss ss)) (st_api ss))
  | Api => Some (mkStats (st_reddit ss) (st_rss ss) (g (st_api ss)))
  | Manual => None
  end.

Definition stat_of (t : stype) (ss : source_stats) : stat :=
  match t with
  | Reddit => st_reddit ss | Rss => st_rss ss | Api => st_api ss | Manual => stat0
  end.

Definition inc_processed (s : stat) := mkStat (S (processed s)) (success s) (failed s) (fetched s).
Definition inc_success (n : nat) (s : stat) :=
  mkStat (processed s) (S (success s)) (failed s) (fetched s + n).
Definition inc_failed (s : stat) := mkStat (processed s) (success s) (S (failed s)) (fetched s).

Definition MAX_TOTAL_POSTS : nat := 25.

(** [Math.max(3, Math.floor(MAX_TOTAL_POSTS / sources.length))]; with no
    source JavaScript gives [Infinity] where [nat] division gives 3, which
    no source can observe. *)
Definition max_posts_per_source (n : nat) : nat := Nat.max 3 (MAX_TOTAL_POSTS / n).

Definition stype_eqb (a b : stype) : bool :=
  match a, b with
  | Reddit, Reddit | Rss, Rss | Api, Api | Manual, Manual => true
  | _, _ => false
  end.

Definition of_type (t : stype) (sr : source * remote) : bool := stype_eqb (s_type (fst sr)) t.

(** [redditSources], then [rssSources], then [apiSources]. *)
Definition dispatched (srcs : list (source * remote)) : list (source * remote) :=
  filter (of_type Reddit) srcs ++ filter (of_type Rss) srcs ++ filter (of_type Api) srcs.

(** The promises of [fetchPromises], joined by [Promise.allSettled]:
    every [fetchSourceWithTimeout] promise is fulfilled.  Sources are run
    one after the other; only the interleaving of writes to the shared
    collection differs from the parallel run. *)
Fixpoint run_all (md5 : string -> string) (maxPer : nat) (force : bool) (st : store)
    (ds : list (source * remote)) : list (nat * stype) * store :=
  match ds with
  | [] => ([], st)
  | (src, r) :: ds' =>
      let '(res, st1) := fetchSourceWithTimeout md5 src (s_type src) maxPer force st r in
      let '(rs, st2) := run_all md5 maxPer force st1 ds' in
      (res :: rs, st2)
  end.

(** The result loop of [POST]: [results[i]] is read together with
    [sources[i]] (the priority-ordered list); [None] is a TypeError. *)
Fixpoint stats_loop (results : list (nat * stype)) (sources : list source)
    (totalFetched : nat) (ss : source_stats) : option (nat * source_stats) :=
  match results, sources with
  | [], _ => Some (totalFetched, ss)
  | _ :: _, [] => None                        (* [source.name] of undefined *)
  | (fetchedCount, sourceType) :: rs, src :: srcs =>
      let totalFetched' := totalFetched + fetchedCount in
      match (if 0 <? fetchedCount then update_stat sourceType (inc_success fetchedCount) ss
             else update_stat sourceType inc_failed ss) with
      | None => None
      | Some ss1 =>
          if MAX_TOTAL_POSTS <=? totalFetched' then Some (totalFetched', ss1)   (* break *)
          else
            match update_stat (s_type src) inc_processed ss1 with
            | None => None
            | Some ss2 => stats_loop rs srcs totalFetched' ss2
            end
      end
  end.

(** The fetch phase of [POST]: every dispatched source, with the
    per-source cap of the run and [forceRefresh = true]. *)
Definition refresh_results (md5 : string -> string) (srcs : list (source * remote)) (st : store)
    : list (nat * stype) * store :=
  run_all md5 (max_posts_per_source (length srcs)) true st (dispatched srcs).

(** The JSON answer of [POST]. *)
Inductive response :=
  | Ok (totalFetched sourcesProcessed maxPostsPerSource : nat) (sourceStats : source_stats)
  | Err500.

Definition success_of (r : response) : bool :=
  match r with Ok _ _ _ _ => true | Err500 => false end.

(** [POST]: the sources are the active ones in priority order, each with
    what the remote end answers; every fetch is a forced refresh.  The
    collection after the run is returned as well. *)
Definition POST (md5 : string -> string) (srcs : list (source * remote)) (st : store)
    : response * store :=
  let sources := map fst srcs in
  let maxPer := max_posts_per_source (length sources) in
  let '(results, st') := refresh_results md5 srcs st in
  match stats_loop results sources 0 stats0 with
  | Some (newPostsCount, ss) => (Ok newPostsCount (length sources) maxPer ss, st')
  | None => (Err500, st')
  end.

End Orchestrator.

Import Orchestrator.

(* ================================================================== *)
(** ** Regex scanning of feeds (route.js and contentAggregator.js) *)

Module Feed.

(** Case-insensitive prefix test (the [i] flag). *)
Definition startsWith_ci (s p : string) : bool := startsWith (toLowerCase s) (toLowerCase p).

Definition starts (ci : bool) (s p : string) : bool :=
  if ci then startsWith_ci s p else startsWith s p.

(** The text up to the first [c] and the text after it. *)
Fixpoint split_at_char (c : ascii) (s : string) : option (string * string) :=
  match s with
  | EmptyString => None
  | String d s' =>
      if Ascii.eqb c d then Some (EmptyString, s')
      else option_map (fun '(a, b) => (String d a, b)) (split_at_char c s')
  end.

(** The text up to the first occurrence of [p] and the text after it. *)
Fixpoint split_at_str (ci : bool) (p s : string) : option (string * string) :=
  if starts ci s p then Some (EmptyString, substring (String.length p) (String.length s) s)
  else
    match s with
    | EmptyString => None
    | String d s' => option_map (fun '(a, b) => (String d a, b)) (split_at_str ci p s')
    end.

Definition tail_str (s : string) : string :=
  match s with EmptyString => EmptyString | String _ s' => s' end.

(** One attempt of [/<tag[^>]*>([\s\S]*?)<\/tag>/] at the start of [s]:
    the captured text and the input after the match. *)
Definition block_here (ci : bool) (tag s : string) : option (string * string) :=
  if starts ci s ("<" ++ tag) then
    match split_at_char ">" (substring (S (String.length tag)) (String.length s) s) with
    | Some (_, body) => split_at_str ci ("</" ++ tag ++ ">") body
    | None => None
    end
  else None.

(** All matches of the block regex with the [g] flag, left to right. *)
Fixpoint blocks_fuel (fuel : nat) (ci : bool) (tag s : string) : list string :=
  match fuel with
  | O => []
  | S fuel' =>
      match s with
      | EmptyString => []
      | _ =>
          match block_here ci tag s with
          | Some (inner, rest) => inner :: blocks_fuel fuel' ci tag rest
          | None => blocks_fuel fuel' ci tag (tail_str s)
          end
      end
  end.

Definition blocks (ci : bool) (tag s : string) : list string :=
  blocks_fuel (S (String.length s)) ci tag s.

(** The first match of the block regex (no [g] flag). *)
Fixpoint first_block_fuel (fuel : nat) (ci : bool) (tag s : string) : option string :=
  match fuel with
  | O => None
  | S fuel' =>
      match block_here ci tag s with
      | Some (inner, _) => Some inner
      | None =>
          match s with
          | EmptyString => None
          | String _ s' => first_block_fuel fuel' ci tag s'
          end
      end
  end.

Definition first_block (ci : bool) (tag s : string) : option string :=
  first_block_fuel (S (String.length s)) ci tag s.

(** [.replace(/<[^>]*>/g, '')] *)
Fixpoint strip_tags_fuel (fuel : nat) (s : string) : string :=
  match fuel with
  | O => s
  | S fuel' =>
      match s with
      | EmptyString => EmptyString
      | String c s' =>
          if Ascii.eqb c "<"%char then
            match split_at_char ">" s' with
            | Some (_, rest) => strip_tags_fuel fuel' rest
            | None => String c (strip_tags_fuel fuel' s')
            end
          else String c (strip_tags_fuel fuel' s')
      end
  end.

Definition strip_tags (s : string) : string := strip_tags_fuel (S (String.length s)) s.

(** *** [parseRSSXML] of route.js *)

Definition route_field (tag item : string) : option string :=
  option_map (fun t => trim (strip_tags t)) (first_block true tag item).

Section DateParse.

(** [Date.parse] of a string ([None]: [NaN]); its format support is
    implementation-defined, so it is left as a parameter. *)
Variable date_parse : string -> option Z.

(** [xmlText.match(/<item[^>]*>([\s\S]*?)<\/item>/gi)]; each item needs a
    title and a link that are non-empty and not ["undefined"]; [pubDate] is
    [new Date(text)], or [new Date()] without a [pubDate] element. *)
Definition route_parseRSSXML (xmlText : string) : list rss_item :=
  flat_map (fun item =>
    match route_field "title" item, route_field "link" item with
    | Some title, Some link =>
        if String.eqb title "" || String.eqb link "" ||
           String.eqb title "undefined" || String.eqb link "undefined" then []
        else [mkRssItem title link (match route_field "description" item with
                                    | Some d => d | None => "" end)
                        (match route_field "pubDate" item with
                         | Some t => date_of_parse (date_parse t) | None => Now end)]
    | _, _ => []
    end) (blocks true "item" xmlText).

(** One RSS strategy of [fetchRSSContent] after a successful response:
    the size and format checks, then the parse; [None] is a strategy that
    is skipped with zero yield. *)
Definition rss_strategy_items (xmlText : string) : option (list rss_item) :=
  if String.length xmlText <? 100 then None
  else if negb (includes xmlText "<rss" || includes xmlText "<feed" || includes xmlText "<item")
  then None
  else match route_parseRSSXML xmlText with
       | [] => None
       | items => Some items
       end.

End DateParse.

(** *** [parseRSSXML] of contentAggregator.js *)

Fixpoint skip_ws (s : string) : string :=
  match s with
  | String c s' => if is_space c then skip_ws s' else s
  | EmptyString => EmptyString
  end.

(** The CDATA regex of [extractXMLTagWithCDATA] at the start of [s]:
    the open tag, white space, [<![CDATA[], the text up to the first
    [\]], then [\]\]>], white space and the close tag. *)
Definition cdata_here (tag s : string) : option string :=
  if startsWith_ci s ("<" ++ tag) then
    match split_at_char ">" (substring (S (String.length tag)) (String.length s) s) with
    | Some (_, body) =>
        let body := skip_ws body in
        if startsWith_ci body "<![CDATA[" then
          match split_at_char "]" (substring 9 (String.length body) body) with
          | Some (inner, rest) =>
              if startsWith rest "]>" &&
                 startsWith_ci (skip_ws (substring 2 (String.length rest) rest)) ("</" ++ tag ++ ">")
              then Some inner else None
          | None => None
          end
        else None
    | None => None
    end
  else None.

(** The plain regex of [extractXMLTagWithCDATA] at the start of [s]: the
    open tag, the text up to the first [<], which must start the close
    tag. *)
Definition regular_here (tag s : string) : option string :=
  if startsWith_ci s ("<" ++ tag) then
    match split_at_char ">" (substring (S (String.length tag)) (String.length s) s) with
    | Some (_, body) =>
        match split_at_char "<" body with
        | Some (inner, rest) =>
            if startsWith_ci (String "<" rest) ("</" ++ tag ++ ">") then Some inner else None
        | None => None
        end
    | None => None
    end
  else None.

(** The first position where [here] matches. *)
Fixpoint first_match (here : string -> option string) (fuel : nat) (s : string) : option string :=
  match fuel with
  | O => None
  | S fuel' =>
      match here s with
      | Some x => Some x
      | None => match s with EmptyString => None | String _ s' => first_match here fuel' s' end
      end
  end.

(** [extractXMLTagWithCDATA]: the CDATA form first, then the plain form;
    [None] is [null]. *)
Definition extractXMLTagWithCDATA (content tag : string) : option string :=
  match first_match (cdata_here tag) (S (String.length content)) content with
  | Some x => Some x
  | None => first_match (regular_here tag) (S (String.length content)) content
  end.

(** [.replace(/&[^;]+;/g, ' ')] *)
Fixpoint drop_entities_fuel (fuel : nat) (s : string) : string :=
  match fuel with
  | O => s
  | S fuel' =>
      match s with
      | EmptyString => EmptyString
      | String c s' =>
          if Ascii.eqb c "&"%char then
            match split_at_char ";" s' with
            | Some (String _ _, rest) => String " " (drop_entities_fuel fuel' rest)
            | _ => String c (drop_entities_fuel fuel' s')
            end
          else String c (drop_entities_fuel fuel' s')
      end
  end.

(** [cleanHTML] *)
Definition cleanHTML (o : option string) : string :=
  match o with
  | Some t => if String.eqb t "" then ""
              else trim (drop_entities_fuel (S (String.length t)) (strip_tags t))
  | None => ""
  end.

(** [/<guid[^>]*>([^<]+)<\/guid>/i] at the start of [s]: the plain form
    with a non-empty text. *)
Definition guid_here (s : string) : option string :=
  match regular_here "guid" s with
  | Some g => if String.eqb g "" then None else Some g
  | None => None
  end.

(** The first match of the [guid] regex. *)
Definition guid_of (itemContent : string) : option string :=
  first_match guid_here (S (String.length itemContent)) itemContent.

Definition is_digit (c : ascii) : bool :=
  let n := nat_of_ascii c in (48 <=? n) && (n <=? 57).

Fixpoint leading_digits (s : string) : string :=
  match s with
  | String c s' => if is_digit c then String c (leading_digits s') else EmptyString
  | EmptyString => EmptyString
  end.

(** [/\?p=(\d+)/] at the start of [s]. *)
Definition post_id_here (s : string) : option string :=
  if startsWith s "?p=" then
    let d := leading_digits (substring 3 (String.length s) s) in
    if String.eqb d "" then None else Some d
  else None.

(** [url.match(/\?p=(\d+)/)] *)
Definition post_id (url : string) : option string :=
  first_match post_id_here (S (String.length url)) url.

(** [fixRSSUrl] *)
Definition fixRSSUrl (url : string) (itemContent : string) : string :=
  let verge :=
    if includes url "theverge.com" && includes url "?p=" then
      match post_id url with
      | Some postId =>
          match guid_of itemContent with
          | Some g => if negb (includes g "?p=") then Some g
                      else Some ("https://www.theverge.com/" ++ postId)
          | None => Some ("https://www.theverge.com/" ++ postId)
          end
      | None => None
      end
    else None in
  match verge with
  | Some u => u
  | None =>
      if includes url "?" && negb (includes url "/") then
        match guid_of itemContent with
        | Some g => if negb (includes g "?") then g else url
        | None => url
        end
      else url
  end.

(** An item of the library parser (categories are not modelled). *)
Record feed_item := mkFeedItem {
  g_title : string;
  g_link : string;
  g_description : string;
  g_pubDate : option string;
  g_author : string
}.

Definition agg_entry (entryContent : string) : list feed_item :=
  let x := extractXMLTagWithCDATA entryContent in
  let title := x "title" in
  let link := or_else (x "link") (x "id") in
  let description := or_else (x "summary") (x "content") in
  let pubDate := or_else (x "published") (x "updated") in
  let author := or_else (x "name") (x "author") in
  if truthy title && truthy link then
    [mkFeedItem (cleanHTML title) (fixRSSUrl (or_default link "") entryContent)
                (cleanHTML description) pubDate (cleanHTML author)]
  else [].

Definition agg_item (itemContent : string) : list feed_item :=
  let x := extractXMLTagWithCDATA itemContent in
  let title := x "title" in
  let link := x "link" in
  let description := or_else (or_else (x "description") (x "content")) (x "content:encoded") in
  let pubDate := or_else (or_else (x "pubDate") (x "date")) (x "dc:date") in
  let author := or_else (x "author") (x "dc:creator") in
  if truthy title && truthy link then
    [mkFeedItem (cleanHTML title) (fixRSSUrl (or_default link "") itemContent)
                (cleanHTML description) pubDate (cleanHTML author)]
  else [].

(** [ContentAggregator.parseRSSXML]: Atom when the text contains [<feed]
    or [<entry]; the block regexes have the [g] flag only. *)
Definition agg_parseRSSXML (xmlText : string) : list feed_item :=
  if includes xmlText "<feed" || includes xmlText "<entry"
  then flat_map agg_entry (blocks false "entry" xmlText)
  else flat_map agg_item (blocks false "item" xmlText).

End Feed.

Import Feed.

(* ================================================================== *)
(** ** JSON payloads of generic APIs *)

Module ApiJson.

#[local] Set Warnings "-register-all".

(** A value produced by [response.json()]. *)
Inductive json :=
  | JNull
  | JBool (b : bool)
  | JNum (z : Z)
  | JStr (s : string)
  | JArr (l : list json)
  | JObj (kvs : list (string * json)).

(** Property read [o.k] ([None] is [undefined]); later bindings win, as
    for duplicate keys in [JSON.parse] and for object spread. *)
Fixpoint assoc_last (k : string) (kvs : list (string * json)) : option json :=
  match kvs with
  | [] => None
  | (k', v) :: kvs' =>
      match assoc_last k kvs' with
      | Some w => Some w
      | None => if String.eqb k k' then Some v else None
      end
  end.

Definition get (o : option json) (k : string) : option json :=
  match o with
  | Some (JObj kvs) => assoc_last k kvs
  | _ => None
  end.

Definition truthy_json (o : option json) : bool :=
  match o with
  | None | Some JNull => false
  | Some (JBool b) => b
  | Some (JNum z) => negb (Z.eqb z 0)
  | Some (JStr s) => negb (String.eqb s "")
  | Some (JArr _) | Some (JObj _) => true
  end.

(** [a || b] *)
Definition jor (a b : option json) : option json := if truthy_json a then a else b.

Definition is_array (o : option json) : bool :=
  match o with Some (JArr _) => true | _ => false end.

(** [String(v)] of a value (arrays joined by commas). *)
Fixpoint to_js_string (v : json) : string :=
  match v with
  | JNull => "null"
  | JBool b => if b then "true" else "false"
  | JNum z => string_of_Z z
  | JStr s => s
  | JArr l =>
      (fix join (l : list json) : string :=
         match l with
         | [] => ""
         | [x] => match x with JNull => "" | _ => to_js_string x end
         | x :: l' => match x with JNull => "" | _ => to_js_string x end ++ "," ++ join l'
         end) l
  | JObj _ => "[object Object]"
  end.

Definition template (o : option json) : string :=
  match o with None => "undefined" | Some v => to_js_string v end.

(** The own enumerable properties copied by [...item]. *)
Fixpoint string_indices (i : nat) (s : string) : list (string * json) :=
  match s with
  | EmptyString => []
  | String c s' => (string_of_Z (Z.of_nat i), JStr (String c EmptyString)) :: string_indices (S i) s'
  end.

Definition spread (v : json) : list (string * json) :=
  match v with
  | JObj kvs => kvs
  | JStr s => string_indices 0 s
  | _ => []
  end.

Definition opt_kv (k : string) (o : option json) : list (string * json) :=
  match o with Some v => [(k, v)] | None => [] end.

(** The [items.map] of [extractItemsFromAPI]; [None] is the TypeError of
    reading a property of [null]. *)
Definition normalize (item : json) : option json :=
  match item with
  | JNull => None
  | _ =>
      let i := Some item in
      let title := jor (jor (get i "title") (get i "name")) (jor (get i "headline") (Some (JStr "Untitled"))) in
      let url := jor (jor (get i "url") (get i "link")) (jor (jor (get i "html_url") (get i "permalink"))
                   (Some (JStr ("#" ++ template (get i "id"))))) in
      let summary := jor (jor (get i "summary") (get i "description"))
                         (jor (jor (get i "body") (get i "excerpt")) (get i "title")) in
      let publishedAt := jor (jor (get i "published_at") (get i "created_at"))
                             (jor (jor (get i "date") (get i "pubDate")) (get i "timestamp")) in
      let author := jor (jor (get i "author") (get (get i "user") "login"))
                        (jor (jor (get i "creator") (get i "by")) (Some (JStr "Unknown"))) in
      let tags := jor (jor (get i "tags") (get i "topics"))
                      (jor (jor (get i "labels") (get i "categories")) (Some (JArr []))) in
      Some (JObj (opt_kv "title" title ++ opt_kv "url" url ++ opt_kv "summary" summary ++
                  opt_kv "publishedAt" publishedAt ++ opt_kv "author" author ++
                  opt_kv "tags" tags ++ spread item))
  end.

(** The [.filter] of [extractItemsFromAPI]. *)
Definition keep (o : json) : bool :=
  truthy_json (get (Some o) "title") && truthy_json (get (Some o) "url") &&
  match get (Some o) "url" with
  | Some (JStr u) => negb (String.eqb u "#undefined")
  | _ => true
  end.

Fixpoint map_option {A B} (f : A -> option B) (l : list A) : option (list B) :=
  match l with
  | [] => Some []
  | x :: l' =>
      match f x, map_option f l' with
      | Some y, Some ys => Some (y :: ys)
      | _, _ => None
      end
  end.

(** The known wrapper keys, in the order they are tried. *)
Definition wrapper_keys : list string := ["items"; "articles"; "posts"; "results"; "stories"; "data"].

Fixpoint first_array (o : option json) (ks : list string) : option (list json) :=
  match ks with
  | [] => None
  | k :: ks' =>
      match get o k with
      | Some (JArr l) => Some l
      | _ => first_array o ks'
      end
  end.

(** [extractItemsFromAPI]: [None] when it raises ([data.items] of
    [null], or a [null] element). *)
Definition extractItemsFromAPI (data : json) : option (list json) :=
  let items :=
    match data with
    | JArr l => Some (Some l)
    | JNull => None
    | _ => Some (first_array (Some data) wrapper_keys)
    end in
  match items with
  | None => None
  | Some None => Some []                                 (* unknown format *)
  | Some (Some l) => option_map (filter keep) (map_option normalize l)
  end.

(** The element of a generic API array as the refresh route reads it:
    the string-valued properties it uses. *)
Definition str_prop (v : json) (k : string) : option string :=
  match get (Some v) k with Some (JStr s) => Some s | _ => None end.

Section DateParse.

(** [Date.parse] of a string, as in the RSS parser. *)
Variable date_parse : string -> option Z.

(** [new Date(v)] of a JSON value: a number is a time value, [true] and
    [null] convert to 1 and 0, anything else goes through its string. *)
Definition js_new_date (v : json) : date :=
  match v with
  | JNum z => date_of_ms z
  | JBool b => At (if b then 1 else 0)%Z
  | JNull => At 0
  | _ => date_of_parse (date_parse (to_js_string v))
  end.

Definition api_item_of_json (v : json) : api_item :=
  mkApiItem (str_prop v "title") (str_prop v "url") (str_prop v "description") (str_prop v "summary")
    (str_prop v "content")
    (let w := get (Some v) "publishedAt" in
     match w with
     | Some x => if truthy_json w then Some (js_new_date x) else None
     | None => None
     end).

(** One generic-API strategy of the refresh route after a successful
    response: [if (Array.isArray(data))] processes the array, otherwise
    the strategy is logged as "non-array data" with zero yield. *)
Definition route_api_batch (data : json) : option (list api_item) :=
  match data with
  | JArr l => Some (map api_item_of_json l)
  | _ => None
  end.

End DateParse.

(** [x || ''] in a string concatenation. *)
Definition str_or_empty (o : option json) : string :=
  match jor o (Some (JStr "")) with Some v => to_js_string v | None => "" end.

(** [text.split(/\s+/).length]: one more than the number of maximal runs
    of white space. *)
Fixpoint ws_runs (prev_space : bool) (s : string) : nat :=
  match s with
  | EmptyString => 0
  | String c s' =>
      if is_space c then (if prev_space then 0 else 1) + ws_runs true s'
      else ws_runs false s'
  end.

Definition word_pieces (s : string) : nat := S (ws_runs false s).

(** [matchesFilters] of the library ([source.filters] is a nested
    document, so the [!filters] early return is not taken). *)
Definition matchesFilters (item : json) (f : filters) : bool :=
  let i := Some item in
  let text := str_or_empty (get i "title") ++ " " ++
              str_or_empty (jor (get i "description") (jor (get i "selftext") (get i "summary"))) in
  let lowerText := toLowerCase text in
  let wc_ok :=
    match f_minWordCount f with
    | Some m => if Z.eqb m 0 then true else negb (below_min (word_pieces text) 3 m 8)
    | None => true
    end in
  let inc_ok := match f_includeKeywords f with [] => true | ks => has_keyword lowerText ks end in
  wc_ok && inc_ok && negb (has_keyword lowerText (f_excludeKeywords f)).

End ApiJson.

Import ApiJson.

(* ================================================================== *)
(** ** Technology tags (route.js and contentAggregator.js) *)

Module Tech.

(** [techKeywords] of the route's [extractTechnologies]. *)
Definition techKeywords : list string :=
  ["react"; "vue"; "angular"; "node"; "python"; "javascript"; "typescript";
   "docker"; "kubernetes"; "aws"; "azure"; "gcp"; "mongodb"; "postgresql";
   "redis"; "elasticsearch"; "machine learning"; "ai"; "blockchain";
   "cybersecurity"; "devops"; "microservices"; "serverless"].

(** [extractTechnologies] of route.js. *)
Definition extractTechnologies (text : string) : list string :=
  let lowerText := toLowerCase text in
  filter (fun keyword => includes lowerText keyword) techKeywords.

(** [techKeywords] of [ContentAggregator.extractTechnologies]. *)
Definition agg_techKeywords : list string :=
  ["React"; "Vue"; "Angular"; "Node.js"; "Python"; "JavaScript"; "TypeScript";
   "Docker"; "Kubernetes"; "AWS"; "Azure"; "GCP"; "MongoDB"; "PostgreSQL";
   "Redis"; "GraphQL"; "REST"; "API"; "AI"; "Machine Learning"; "TensorFlow";
   "PyTorch"; "Next.js"; "Express"; "Django"; "Flask"; "FastAPI"].

(** [ContentAggregator.extractTechnologies]: the matches, then
    [found.slice(0, 5)]. *)
Definition agg_extractTechnologies (text : string) : list string :=
  let found := filter (fun tech => includes (toLowerCase text) (toLowerCase tech)) agg_techKeywords in
  firstn 5 found.

End Tech.

Import Tech.

(* ================================================================== *)
(** ** The Reddit and RSS fetchers of [src/lib/contentAggregator.js] *)

Module Library.

Section Fetch.

Variable md5 : string -> string.
Variable date_parse : string -> option Z.

(** [explorationStrategies] of [ContentAggregator.fetchRedditContent]. *)
Definition agg_reddit_strategies (src : source) : list strategy :=
  [ mkStrategy (or_default (s_sortBy src) "hot") (or_default (s_timeFilter src) "day") 50
               "primary configured strategy";
    mkStrategy "top" "week" 100 "top weekly posts (deeper content)";
    mkStrategy "top" "month" 150 "top monthly posts (historical content)";
    mkStrategy "new" "day" 50 "new posts from today";
    mkStrategy "rising" "day" 50 "rising posts from today" ].

Definition desperate_strategy : strategy :=
  mkStrategy "top" "all" 200 "desperate all-time top posts".

(** [postData] as [matchesFilters] reads it: [title] and [selftext]. *)
Definition post_json (p : post) : json :=
  JObj (("title", JStr (p_title p)) ::
        match p_selftext p with Some t => [("selftext", JStr t)] | None => [] end).

(** The filter and the [new Content({...})] of [processRedditPosts]; the
    document is the one the route builds. *)
Definition agg_reddit_mk (src : source) (p : post) : option content :=
  if matchesFilters (post_json p) (s_filters src) then Some (reddit_content src p) else None.

(** [processRedditPosts(posts, targetPosts, source, strategy, forceRefresh)]
    over [posts.slice(0, targetPosts)], in the order of the listing. *)
Definition agg_processRedditPosts (src : source) (targetPosts : nat) (forceRefresh : bool)
    (st : store) (posts : list post) : nat * store :=
  process_batch md5 (fun p => Some (p_url p)) (agg_reddit_mk src) forceRefresh targetPosts 0 st
    (firstn targetPosts posts).

(** [ContentAggregator.fetchRedditContent] with [maxPosts = 50]: the five
    strategies, then, when [totalFetched < Math.max(1, maxPosts * 0.3)],
    the desperate strategy with target [Math.max(2, maxPosts -
    totalFetched)] and [forceRefresh = true].  [outs] are the listings of
    the five strategies, [desperate] that of the desperate one ([None]: a
    failed fetch, 0).  The result is [totalFetched], the yields of the
    attempted strategies, the desperate yield when it ran, and the
    collection. *)
Definition agg_fetchRedditContent (src : source) (st : store) (outs : list (option (list post)))
    (desperate : option (list post)) : nat * list nat * option nat * store :=
  let '(t, ys, st1) :=
    run_strategies (fun _ target st0 posts => agg_processRedditPosts src target false st0 posts)
      50 0 st (attach (agg_reddit_strategies src) outs) in
  if t <? 15 then
    let '(y, st2) :=
      match desperate with
      | Some posts => agg_processRedditPosts src (Nat.max 2 (50 - t)) true st1 posts
      | None => (0, st1)
      end in
    (t + y, ys, Some y, st2)
  else (t, ys, None, st1).

(** An item of [parseRSSXML] as [matchesFilters] reads it. *)
Definition feed_item_json (it : feed_item) : json :=
  JObj [("title", JStr (g_title it)); ("description", JStr (g_description it))].

(** [item.description?.substring(0, 500) || 'No description available'] *)
Definition agg_rss_description (it : feed_item) : string :=
  or_default (Some (substring0 (g_description it) 500)) placeholder.

(** The filter and the [new Content({...})] of [processRSSItems]. *)
Definition agg_rss_mk (src : source) (it : feed_item) : option content :=
  if matchesFilters (feed_item_json it) (s_filters src) then
    let description := agg_rss_description it in
    Some (new_content (g_title it) (g_link it) description (s_name src) (s_category src)
            (match g_pubDate it with
             | Some s => if String.eqb s "" then Now else date_of_parse (date_parse s)
             | None => Now
             end)
            None (ceil_div200 (String.length (g_title it) + String.length description)))
  else None.

(** [processRSSItems(items, targetPosts, source, strategy)] over the
    items in processing order (newest first), [slice(0, targetPosts)];
    an existing URL is always skipped. *)
Definition agg_processRSSItems (src : source) (targetPosts : nat) (st : store)
    (items : list feed_item) : nat * store :=
  process_batch md5 (fun it => Some (g_link it)) (agg_rss_mk src) false targetPosts 0 st
    (firstn targetPosts items).

(** [ContentAggregator.fetchRSSContent] with [maxPosts = 50]; [outs] are
    the parsed items of the three strategies ([None]: a failed request, a
    response too short or not XML, or no items). *)
Definition agg_fetchRSSContent (src : source) (st : store) (outs : list (option (list feed_item)))
    : nat * list nat * store :=
  run_strategies (fun _ target st0 items => agg_processRSSItems src target st0 items)
    50 0 st (attach rss_strategies outs).

End Fetch.

End Library.

Import Library.

(* ================================================================== *)
(** ** [sourceSchema.methods.shouldIncludeContent] ([models/Source.js]) *)

Module SourceFilter.

(** [this.filters] with every path of the schema; an absent array is the
    empty Mongoose array, an absent number [None]. *)
Record source_filters := mkSourceFilters {
  sf_includeKeywords : list string;
  sf_excludeKeywords : list string;
  sf_minWordCount : option Z;
  sf_maxWordCount : option Z;
  sf_allowedCategories : list string;
  sf_blockedCategories : list string
}.

(** The fields of the [content] argument that the method reads; a
    missing [wordCount] is [None] ([undefined], every comparison with it
    is false). *)
Record candidate := mkCandidate {
  cd_title : string;
  cd_summary : string;
  cd_category : string;
  cd_wordCount : option Z
}.

(** [this.filters.m && content.wordCount op this.filters.m]: a threshold
    of 0 is falsy. *)
Definition bound_fails (m : option Z) (w : option Z) (op : Z -> Z -> bool) : bool :=
  match m, w with
  | Some b, Some x => negb (Z.eqb b 0) && op x b
  | _, _ => false
  end.

Definition shouldIncludeContent (f : source_filters) (c : candidate) : bool :=
  if bound_fails (sf_minWordCount f) (cd_wordCount c) Z.ltb then false
  else if bound_fails (sf_maxWordCount f) (cd_wordCount c) (fun x b => Z.ltb b x) then false
  else if (0 <? length (sf_allowedCategories f)) &&
          negb (existsb (String.eqb (cd_category c)) (sf_allowedCategories f)) then false
  else if existsb (String.eqb (cd_category c)) (sf_blockedCategories f) then false
  else
    let contentText := toLowerCase (cd_title c ++ " " ++ cd_summary c) in
    if (0 <? length (sf_excludeKeywords f)) &&
       existsb (fun keyword => includes contentText (toLowerCase keyword)) (sf_excludeKeywords f)
    then false
    else if (0 <? length (sf_includeKeywords f)) &&
            negb (existsb (fun keyword => includes contentText (toLowerCase keyword))
                          (sf_includeKeywords f))
    then false
    else true.

End SourceFilter.

Import SourceFilter.

(* ================================================================== *)
(** ** [contentSchema.virtual('relativeTime')] ([models/Content.js]) *)

Module Virtuals.

Definition ms_per_day : Z := 1000 * 60 * 60 * 24.

(** [Math.ceil(a / b)] for [a >= 0] and [b > 0].  Dates are integral
    milliseconds; for the differences the labels depend on (under 365
    days) the double quotient is never rounded onto an integer, so the
    exact ceiling is the computed one. *)
Definition ceil_div (a b : Z) : Z := ((a + b - 1) / b)%Z.

(** The value of the virtual: a text, or
    [this.publishedAt.toLocaleDateString()]. *)
Inductive label := Text (s : string) | LocaleDate (publishedAt : Z).

(** [now] and [publishedAt] in milliseconds since the epoch. *)
Definition relativeTime (now publishedAt : Z) : label :=
  let diffTime := Z.abs (now - publishedAt) in
  let diffDays := ceil_div diffTime ms_per_day in
  if (diffDays =? 1)%Z then Text "Today"
  else if (diffDays =? 2)%Z then Text "Yesterday"
  else if (diffDays <? 7)%Z then Text (string_of_Z (diffDays - 1) ++ " days ago")
  else if (diffDays <? 30)%Z then Text (string_of_Z (ceil_div diffDays 7) ++ " weeks ago")
  else if (diffDays <? 365)%Z then Text (string_of_Z (ceil_div diffDays 30) ++ " months ago")
  else LocaleDate publishedAt.

End Virtuals.

Import Virtuals.

(* ================================================================== *)
(** ** Properties and counting functions used in the statements *)

Module Props.

(** What the processing of one strategy guarantees: at most [target]
    documents, each counted document inserted, URLs kept unique. *)
Definition run_ok {S B : Type} (run : S -> nat -> store -> B -> nat * store) : Prop :=
  forall s target st b,
  let '(y, st') := run s target st b in
  y <= target /\ length st' = length st + y /\ (NoDup (urls st) -> NoDup (urls st')).

(** The same for the count of a whole source. *)
Definition count_ok (maxPosts : nat) (st : store) (n : nat) (st' : store) : Prop :=
  n <= maxPosts /\ length st' = length st + n /\ (NoDup (urls st) -> NoDup (urls st')).

(** The number of sources of type [ty]. *)
Definition count_type (ty : stype) (l : list source) : nat :=
  length (filter (fun s => stype_eqb (s_type s) ty) l).

(** The results of type [ty] with a positive, resp. zero, count. *)
Definition succ_type (ty : stype) (rs : list (nat * stype)) : nat :=
  length (filter (fun r => stype_eqb (snd r) ty && (0 <? fst r)) rs).

Definition fail_type (ty : stype) (rs : list (nat * stype)) : nat :=
  length (filter (fun r => stype_eqb (snd r) ty && (fst r =? 0)) rs).

Definition fetched_type (ty : stype) (rs : list (nat * stype)) : nat :=
  list_sum (map fst (filter (fun r => stype_eqb (snd r) ty) rs)).

(** The progressive strategy loop of a source with target [maxPosts] and
    [nstrats] strategies, seen from its total [t] and the yields [ys] of
    the strategies it attempted: a strategy reaching 60% of the target is
    the last one attempted, every attempted strategy started below the
    target, and the loop stops early only on the target or on a 60%
    yield. *)
Definition progressive_stop (maxPosts nstrats t : nat) (ys : list nat) : Prop :=
  t = list_sum ys /\ t <= maxPosts /\
  (forall k y, nth_error ys k = Some y -> 3 * maxPosts <= 5 * y -> length ys = S k) /\
  (forall k, k < length ys -> list_sum (firstn k ys) < maxPosts) /\
  (length ys < nstrats ->
   maxPosts <= t \/ exists k y, nth_error ys k = Some y /\ length ys = S k /\ 3 * maxPosts <= 5 * y).

(** The order of a Reddit batch as the spec describes it for every sort
    other than new, rising and top: the order of the API. *)
Definition spec_batch_order (s : strategy) (posts : list post) : list post :=
  if String.eqb (sortBy s) "new" || String.eqb (sortBy s) "rising" then sort_posts s posts
  else if String.eqb (sortBy s) "top" then sort_posts s posts
  else posts.

End Props.

Import Props.

(* ================================================================== *)
(** ** What the writes to the collection preserve *)

Module Invariants.

(** A document as [save] leaves it: valid, with the hash of its title
    and URL stamped by the pre-save hook. *)
Definition stamped (md5 : string -> string) (d : content) : Prop :=
  validate d = true /\ c_hash d = Some (md5 (c_title d ++ c_url d)).

(** [st'] is [st] with documents added in front, each one stamped: no
    stored document is changed or removed. *)
Definition grows (md5 : string -> string) (st st' : store) : Prop :=
  exists added, st' = (added ++ st)%list /\ Forall (stamped md5) added.

End Invariants.

Import Invariants.

(* ================================================================== *)
(** ** Concrete inputs *)

Module Examples.

(** A stand-in for [md5]: the statements hold for any function. *)
Definition md5_id (s : string) : string := s.

Definition no_filters : filters := mkFilters [] [] None.

(** The decimal digit [n] (for [n < 10]). *)
Definition digit (n : nat) : string := String (ascii_of_nat (48 + n)) EmptyString.

Definition nl : string := String (ascii_of_nat 10) EmptyString.

Fixpoint repeat_str (n : nat) (s : string) : string :=
  match n with O => EmptyString | S n' => s ++ repeat_str n' s end.

(** Nine subreddits, each answering its first strategy with three new
    posts. *)
Definition ex_post (i j : nat) : post :=
  mkPost ("Post " ++ digit i ++ digit j) (Some "Body text")
         ("https://www.reddit.com/r/sub" ++ digit i ++ "/" ++ digit j) 0 0.

Definition ex_reddit_source (i : nat) : source * remote :=
  (mkSource ("sub" ++ digit i) Reddit "tech" no_filters None None,
   RReddit [Some (map (ex_post i) [0; 1; 2])]).

Definition nine_subreddits : list (source * remote) := map ex_reddit_source (seq 1 9).

(** Nine feeds with three items each, then an API source whose fetcher
    throws. *)
Definition ex_rss_item (i j : nat) : rss_item :=
  mkRssItem ("Item " ++ digit i ++ digit j) ("https://feed" ++ digit i ++ ".example/" ++ digit j)
            "Some description" Now.

Definition ex_rss_source (i : nat) : source * remote :=
  (mkSource ("feed" ++ digit i) Rss "news" no_filters None None,
   RRss [Some (map (ex_rss_item i) [0; 1; 2])]).

Definition throwing_api : source * remote :=
  (mkSource "Broken API" Api "news" no_filters None None, RThrows).

Definition feeds_then_broken : list (source * remote) :=
  map ex_rss_source (seq 1 9) ++ [throwing_api].

(** A feed, a subreddit and a broken API source. *)
Definition small_run : list (source * remote) :=
  [ex_rss_source 1; ex_reddit_source 2; throwing_api].

(** The same subreddit twice: the second run only meets stored URLs. *)
Definition twice_sub : list (source * remote) := [ex_reddit_source 1; ex_reddit_source 1].

(** A subreddit whose first strategy yields one post of target 5, the
    second three. *)
Definition ex_sub : source := fst (ex_reddit_source 1).

Definition two_batches : list (option (list post)) :=
  [Some [ex_post 1 0]; Some (map (ex_post 2) [0; 1; 2; 3])].

(** A post of 40 characters and a source with [minWordCount = 150]. *)
Definition title40 : string := "A forty character title for the filters.".

Definition post40 : post := mkPost title40 None "https://www.reddit.com/r/x/40" 0 0.

Definition min150 : filters := mkFilters [] [] (Some 150%Z).

Definition primary_hot : strategy := mkStrategy "hot" "day" 5 "primary configured strategy".

Definition top_month : strategy := mkStrategy "top" "month" 15 "top monthly posts (historical content)".

(** Two posts of scores 1 and 5, in the order of the API. *)
Definition low_post : post := mkPost "Low" None "https://www.reddit.com/r/x/low" 10 1.
Definition high_post : post := mkPost "High" None "https://www.reddit.com/r/x/high" 20 5.

(** A generic API item with a description of 600 characters. *)
Definition desc600 : string := repeat_str 600 "a".

Definition long_payload : json :=
  JArr [JObj [("title", JStr "Rust 2.0 released"); ("url", JStr "https://x.io/a");
              ("description", JStr desc600)]].

Definition api_source : source := mkSource "Dev API" Api "tech" no_filters None None.

(** An Atom document of five entries; entries 2 and 4 have neither a
    link nor an id. *)
Definition entry_with (k : string) : string :=
  "<entry><title>Post " ++ k ++ "</title><link rel=alternate href=https://blog.example.com/" ++ k ++
  "/><id>https://blog.example.com/" ++ k ++ "</id><updated>2024-01-0" ++ k ++
  "T00:00:00Z</updated></entry>" ++ nl.

Definition entry_without (k : string) : string :=
  "<entry><title>Post " ++ k ++ "</title><updated>2024-01-0" ++ k ++
  "T00:00:00Z</updated><summary>No link here</summary></entry>" ++ nl.

Definition atom_doc : string :=
  "<feed xmlns=http://www.w3.org/2005/Atom><title>Blog</title>" ++ nl ++
  entry_with "1" ++ entry_without "2" ++ entry_with "3" ++ entry_without "4" ++
  entry_with "5" ++ "</feed>".

Definition feed_source : source := mkSource "Blog" Rss "tech" no_filters None None.

(** [{"status": "ok", "articles": [...]}], the third article without a
    title. *)
Definition article (k : string) : json :=
  JObj [("title", JStr ("Article " ++ k)); ("url", JStr ("https://news.example/" ++ k));
        ("description", JStr "text")].

Definition untitled_article : json :=
  JObj [("url", JStr "https://news.example/3"); ("description", JStr "text")].

Definition articles_payload : json :=
  JObj [("status", JStr "ok"); ("articles", JArr [article "1"; article "2"; untitled_article])].

(** Two documents whose title and URL concatenate to the same text. *)
Definition doc_ab_c : content := new_content "ab" "c" "summary" "src" "cat" Now None 1.
Definition doc_a_bc : content := new_content "a" "bc" "summary" "src" "cat" Now None 1.

End Examples.

Import Examples.

(* ================================================================== *)
(** ** More concrete inputs *)

Module MoreExamples.

(** A text about blockchains. *)
Definition chain_text : string := "Blockchain without the hype".

(** A self post of 24001 characters under a short title. *)
Definition long_selftext : string := repeat_str 24001 "a".

Definition long_post : post :=
  mkPost "Long read" (Some long_selftext) "https://www.reddit.com/r/x/long" 0 0.

(** An API object with a title and an id but no URL, and the same
    without the id. *)
Definition hn_like : list (string * json) := [("title", JStr "Show HN: a tool"); ("id", JNum 42)].
Definition hn_like_no_id : list (string * json) := [("title", JStr "Show HN: a tool")].

(** A Verge URL with a post id. *)
Definition verge_url : string := "https://www.theverge.com/?p=123".

(** A source that includes Rust posts and excludes hiring posts. *)
Definition rust_filters : source_filters := mkSourceFilters ["Rust"] ["hiring"] None None [] [].

Definition rust_hiring : candidate := mkCandidate "Rust hiring thread" "Who is hiring?" "jobs" None.

(** A collection holding the first of [ex_post 1 0 .. ex_post 1 2]. *)
Definition stored_first : store :=
  [pre_save md5_id (reddit_content ex_sub (ex_post 1 0))].

End MoreExamples.

Import MoreExamples.

(* ================================================================== *)
(** * Proofs *)

Module Facts.

(** ** The collection *)

Lemma existsb_url_false (st : store) (u : string) :
  existsb (fun e => String.eqb (c_url e) u) st = false -> ~ In u (urls st).
Proof.
  unfold urls; intros H Hin.
  apply in_map_iff in Hin as [e [He Hin]].
  assert (Hx : existsb (fun e => String.eqb (c_url e) u) st = true).
  { apply existsb_exists; exists e; split; [exact Hin | apply String.eqb_eq; exact He]. }
  congruence.
Qed.

(** A successful save adds one document whose URL was not stored. *)
Lemma save_inl (md5 : string -> string) (st st' : store) (d : content) :
  save md5 st d = inl st' ->
  st' = pre_save md5 d :: st /\ ~ In (c_url (pre_save md5 d)) (urls st).
Proof.
  unfold save, violates_unique; simpl.
  destruct (validate d); simpl; [|discriminate].
  destruct (existsb (fun e => String.eqb (c_url e) (c_url d)) st) eqn:Hu; simpl;
    [discriminate|].
  destruct (existsb (fun e => opt_string_eqb (c_hash e) (Some (md5 (c_title d ++ c_url d)))) st);
    [discriminate|].
  intros H; inversion H; subst; split; [reflexivity|].
  apply existsb_url_false; exact Hu.
Qed.

Lemma save_nodup (md5 : string -> string) (st st' : store) (d : content) :
  save md5 st d = inl st' -> NoDup (urls st) ->
  NoDup (urls st') /\ length st' = S (length st).
Proof.
  intros Hs Hnd; apply save_inl in Hs as [-> Hnin].
  split; [constructor; assumption | reflexivity].
Qed.

(** Every document of a collection built by saves carries the hash of its
    title and URL. *)
Lemma save_all_hash (md5 : string -> string) (ds : list content) :
  forall st e, In e (save_all md5 st ds) ->
  In e st \/ c_hash e = Some (md5 (c_title e ++ c_url e)).
Proof.
  induction ds as [|d ds IH]; intros st e Hin; simpl in Hin; [left; exact Hin|].
  destruct (save md5 st d) as [st'|] eqn:Hs.
  - apply save_inl in Hs as [-> _].
    destruct (IH _ _ Hin) as [[<- | H] | H]; [right; reflexivity | left; exact H | right; exact H].
  - exact (IH _ _ Hin).
Qed.

(** ** The per-item loop *)

Section Batch.

Variables (md5 : string -> string) (A : Type) (url_of : A -> option string)
          (mk : A -> option content) (forceRefresh : bool) (targetPosts : nat).

(** Each counted item is one inserted document, the count never passes
    the target, and URLs stay unique. *)
Lemma process_batch_spec (items : list A) :
  forall fetchedCount st,
  let '(n, st') := process_batch md5 url_of mk forceRefresh targetPosts fetchedCount st items in
  fetchedCount <= n /\ n <= Nat.max fetchedCount targetPosts /\
  length st' + fetchedCount = length st + n /\
  (NoDup (urls st) -> NoDup (urls st')).
Proof.
  induction items as [|it rest IH]; intros f st; simpl.
  - repeat split; try lia; try tauto.
  - destruct (targetPosts <=? f) eqn:Ht.
    + repeat split; try lia; try tauto.
    + apply Nat.leb_gt in Ht.
      destruct (_ && negb forceRefresh).
      { specialize (IH f st); destruct process_batch; tauto. }
      destruct (mk it) as [d|].
      2: { specialize (IH f st); destruct process_batch; tauto. }
      destruct (save md5 st d) as [st1|] eqn:Hs.
      2: { specialize (IH f st); destruct process_batch; tauto. }
      specialize (IH (S f) st1); destruct process_batch as [n st'].
      destruct IH as (H1 & H2 & H3 & H4).
      repeat split.
      * lia.
      * lia.
      * destruct (save_inl _ _ _ _ Hs) as [-> _]; simpl in H3; lia.
      * intros Hnd; apply H4; apply (save_nodup _ _ _ _ Hs Hnd).
Qed.

End Batch.

(** ** The strategy loop *)

Section Strategies.

Variables (S B : Type) (run : S -> nat -> store -> B -> nat * store).

Hypothesis Hrun : run_ok run.

Lemma run_strategies_spec (maxPosts : nat) (strats : list (S * option B)) :
  forall totalFetched st, totalFetched <= maxPosts ->
  let '(t, ys, st') := run_strategies run maxPosts totalFetched st strats in
  totalFetched <= t <= maxPosts /\ t = totalFetched + list_sum ys /\
  length st' + totalFetched = length st + t /\
  (NoDup (urls st) -> NoDup (urls st')).
Proof.
  induction strats as [|[s ob] rest IH]; intros tot st Hle; simpl.
  - simpl; repeat split; try lia; try tauto.
  - destruct (tot <? maxPosts) eqn:Hlt.
    2: { simpl; repeat split; try lia; try tauto. }
    apply Nat.ltb_lt in Hlt.
    assert (Hy : let '(y, st1) := match ob with
                                  | Some b => run s (maxPosts - tot) st b
                                  | None => (0, st) end in
                 y <= maxPosts - tot /\ length st1 = length st + y /\
                 (NoDup (urls st) -> NoDup (urls st1))).
    { destruct ob as [b|]; [apply Hrun | simpl; repeat split; try lia; try tauto]. }
    destruct (match ob with Some b => run s (maxPosts - tot) st b | None => (0, st) end)
      as [y st1].
    destruct Hy as (Hy1 & Hy2 & Hy3).
    destruct (0 <? y) eqn:Hy0.
    + destruct (_ <=? _).
      * simpl; simpl; repeat split; try lia; try tauto.
      * specialize (IH (tot + y) st1 ltac:(lia)).
        destruct run_strategies as [[t ys] st'].
        destruct IH as (H1 & H2 & H3 & H4); simpl.
        simpl; repeat split; try lia; try tauto.
    + apply Nat.ltb_ge in Hy0; specialize (IH tot st1 ltac:(lia)).
      destruct run_strategies as [[t ys] st'].
      destruct IH as (H1 & H2 & H3 & H4); simpl.
      simpl; repeat split; try lia; try tauto.
Qed.

End Strategies.

Lemma process_batch_run_ok (md5 : string -> string) (A : Type) (url_of : A -> option string)
    (mk : A -> option content) (force : bool) (target : nat) (st : store) (items : list A) :
  let '(y, st') := process_batch md5 url_of mk force target 0 st items in
  y <= target /\ length st' = length st + y /\ (NoDup (urls st) -> NoDup (urls st')).
Proof.
  pose proof (process_batch_spec md5 A url_of mk force target items 0 st) as H.
  destruct process_batch as [y st']; destruct H as (H1 & H2 & H3 & H4).
  repeat split; try lia; exact H4.
Qed.

(** ** Per-source bounds *)

Lemma run_strategies_count {S B : Type} (run : S -> nat -> store -> B -> nat * store)
    (Hrun : run_ok run) (maxPosts : nat) (st : store) (strats : list (S * option B)) :
  let '(t, _, st') := run_strategies run maxPosts 0 st strats in count_ok maxPosts st t st'.
Proof.
  pose proof (run_strategies_spec S B run Hrun maxPosts strats 0 st (Nat.le_0_l _)) as H.
  destruct run_strategies as [[t ys] st'].
  destruct H as ((_ & H1) & _ & H3 & H4).
  unfold count_ok; repeat split; try lia; tauto.
Qed.

Ltac batch_ok :=
  let s := fresh "s" in
  intros s ???; try destruct s; cbv beta iota; apply process_batch_run_ok.

Ltac fetch_ok :=
  match goal with
  | |- context [run_strategies ?run ?m 0 ?st ?l] =>
      let Hc := fresh "Hc" in
      pose proof (run_strategies_count run ltac:(batch_ok) m st l) as Hc;
      destruct (run_strategies run m 0 st l) as [[? ?] ?]; simpl; split; [reflexivity | exact Hc]
  end.

(** [fetchSourceWithTimeout] reports the type it was given and at most
    [maxPosts] documents, each one inserted. *)
Lemma fetchSource_ok (md5 : string -> string) (src : source) (ty : stype) (maxPosts : nat)
    (force : bool) (st : store) (r : remote) :
  let '((n, ty'), st') := fetchSourceWithTimeout md5 src ty maxPosts force st r in
  ty' = ty /\ count_ok maxPosts st n st'.
Proof.
  assert (H0 : count_ok maxPosts st 0 st) by (unfold count_ok; repeat split; try lia; tauto).
  unfold fetchSourceWithTimeout.
  destruct ty, r; try (split; [reflexivity | exact H0]).
  - unfold fetchRedditContent; fetch_ok.
  - unfold fetchRSSContent; fetch_ok.
  - destruct (String.eqb (s_name src) "Hacker News"); [split; [reflexivity | exact H0]|].
    unfold fetchGenericAPI; fetch_ok.
  - destruct (String.eqb (s_name src) "Hacker News"); [|split; [reflexivity | exact H0]].
    unfold fetchHackerNews; fetch_ok.
Qed.

(** A source whose fetcher throws yields zero. *)
Lemma fetchSource_throws (md5 : string -> string) (src : source) (ty : stype) (maxPosts : nat)
    (force : bool) (st : store) :
  fetchSourceWithTimeout md5 src ty maxPosts force st RThrows = ((0, ty), st).
Proof. destruct ty; reflexivity. Qed.

(** ** The fetch phase of [POST] *)

Lemma run_all_spec (md5 : string -> string) (maxPer : nat) (force : bool)
    (ds : list (source * remote)) : forall st,
  let '(res, st') := run_all md5 maxPer force st ds in
  Forall2 (fun r sr => snd r = s_type (fst sr) /\ (snd sr = RThrows -> fst r = 0)) res ds /\
  Forall (fun r => fst r <= maxPer) res /\
  length st' = length st + list_sum (map fst res) /\
  (NoDup (urls st) -> NoDup (urls st')).
Proof.
  induction ds as [|[src r] ds IH]; intros st; simpl.
  - split; [constructor|]; split; [constructor|]; split; [lia | tauto].
  - pose proof (fetchSource_ok md5 src (s_type src) maxPer force st r) as Hf.
    destruct (fetchSourceWithTimeout md5 src (s_type src) maxPer force st r) as [[n ty] st1] eqn:Hfe.
    destruct Hf as [-> (Hf1 & Hf2 & Hf3)].
    specialize (IH st1).
    destruct (run_all md5 maxPer force st1 ds) as [rs st2].
    destruct IH as (H1 & H2 & H3 & H4); simpl.
    split; [|split; [|split]].
    + constructor; [|exact H1]; simpl; split; [reflexivity|].
      intros ->; rewrite fetchSource_throws in Hfe; congruence.
    + constructor; assumption.
    + lia.
    + tauto.
Qed.

Lemma list_sum_bound (c : nat) (l : list nat) :
  Forall (fun x => x <= c) l -> list_sum l <= length l * c.
Proof. induction 1; simpl; lia. Qed.

Lemma dispatched_length (srcs : list (source * remote)) :
  length (dispatched srcs) <= length srcs /\
  (Forall (fun sr => s_type (fst sr) <> Manual) srcs -> length (dispatched srcs) = length srcs).
Proof.
  unfold dispatched; rewrite !length_app.
  induction srcs as [|[src r] srcs IH]; [simpl; split; [lia | reflexivity]|].
  destruct IH as [IH1 IH2].
  assert (Hof : forall t, of_type t (src, r) = stype_eqb (s_type src) t) by reflexivity.
  simpl filter; rewrite !Hof.
  split.
  - destruct (s_type src); simpl; lia.
  - intros Hf; inversion Hf as [|? ? Hx Hrest]; subst; simpl in Hx.
    specialize (IH2 Hrest); destruct (s_type src); simpl; try congruence; lia.
Qed.

Lemma dispatched_types (srcs : list (source * remote)) :
  Forall (fun sr => s_type (fst sr) <> Manual) (dispatched srcs).
Proof.
  apply Forall_forall; intros [src r] Hin; unfold dispatched in Hin.
  rewrite !in_app_iff, !filter_In in Hin; unfold of_type in Hin; simpl in Hin |- *.
  destruct (s_type src); try discriminate;
    destruct Hin as [[_ H] | [[_ H] | [_ H]]]; discriminate.
Qed.

(** [n * max(3, floor(25 / n))] stays within 25 up to eight sources. *)
Lemma cap_product_small (n : nat) :
  n <= 8 -> n * max_posts_per_source n <= MAX_TOTAL_POSTS.
Proof.
  intros H.
  do 9 (destruct n as [|n]; [vm_compute; lia|]).
  lia.
Qed.

(** ** The result loop of [POST] *)

Lemma update_stat_of (t : stype) (g : stat -> stat) (ss ss' : source_stats) (ty : stype) :
  update_stat t g ss = Some ss' ->
  stat_of ty ss' = if stype_eqb t ty then g (stat_of ty ss) else stat_of ty ss.
Proof. destruct t, ty; simpl; intros H; inversion H; reflexivity. Qed.

(** Without a [manual] source on either side the loop never raises. *)
Lemma stats_loop_some (rs : list (nat * stype)) :
  forall (srcs : list source) tot ss,
  length rs <= length srcs ->
  Forall (fun r => snd r <> Manual) rs -> Forall (fun s => s_type s <> Manual) srcs ->
  exists t ss', stats_loop rs srcs tot ss = Some (t, ss').
Proof.
  induction rs as [|[c rty] rs IH]; intros srcs tot ss Hlen Hr Hs; cbn [stats_loop].
  - eauto.
  - destruct srcs as [|src srcs]; simpl in Hlen; [lia|].
    inversion Hr as [|? ? Hr1 Hr2]; inversion Hs as [|? ? Hs1 Hs2]; subst; simpl in Hr1.
    assert (Hu : forall g, exists ss1, update_stat rty g ss = Some ss1)
      by (intros g; destruct rty; [eexists; reflexivity .. | congruence]).
    destruct (0 <? c).
    + destruct (Hu (inc_success c)) as [ss1 ->].
      destruct (_ <=? tot + c); [eauto|].
      destruct (s_type src) eqn:E; try congruence; simpl; apply IH; auto; lia.
    + destruct (Hu inc_failed) as [ss1 ->].
      destruct (_ <=? tot + c); [eauto|].
      destruct (s_type src) eqn:E; try congruence; simpl; apply IH; auto; lia.
Qed.

(** A loop that ends below the cap has counted every result and every
    source. *)
Lemma stats_loop_counts (rs : list (nat * stype)) :
  forall (srcs : list source) tot ss t ss',
  stats_loop rs srcs tot ss = Some (t, ss') -> t < MAX_TOTAL_POSTS -> length rs = length srcs ->
  t = tot + list_sum (map fst rs) /\
  forall ty,
  processed (stat_of ty ss') = processed (stat_of ty ss) + count_type ty srcs /\
  success (stat_of ty ss') = success (stat_of ty ss) + succ_type ty rs /\
  failed (stat_of ty ss') = failed (stat_of ty ss) + fail_type ty rs /\
  fetched (stat_of ty ss') = fetched (stat_of ty ss) + fetched_type ty rs.
Proof.
  induction rs as [|[c rty] rs IH]; intros srcs tot ss t ss' Hl Ht Hlen.
  - destruct srcs; simpl in Hlen; [|discriminate].
    simpl in Hl; inversion Hl; subst; split; [simpl; lia|].
    intros ty; unfold count_type, succ_type, fail_type, fetched_type; simpl; lia.
  - destruct srcs as [|src srcs]; simpl in Hlen; [discriminate|].
    injection Hlen as Hlen.
    cbn [stats_loop] in Hl.
    destruct (0 <? c) eqn:Hc;
      [destruct (update_stat rty (inc_success c) ss) as [ss1|] eqn:Hu; [|discriminate]
      |destruct (update_stat rty inc_failed ss) as [ss1|] eqn:Hu; [|discriminate]];
    (destruct (_ <=? tot + c) eqn:Hm;
      [inversion Hl; subst; apply Nat.leb_le in Hm; lia|]);
    (destruct (update_stat (s_type src) inc_processed ss1) as [ss2|] eqn:Hp; [|discriminate]);
    destruct (IH _ _ _ _ _ Hl Ht Hlen) as [IH0 IH1];
    (split; [simpl; lia|]);
    intros ty; destruct (IH1 ty) as (E1 & E2 & E3 & E4);
    rewrite (update_stat_of _ _ _ _ ty Hp), (update_stat_of _ _ _ _ ty Hu) in E1, E2, E3, E4;
    unfold count_type, succ_type, fail_type, fetched_type in *; simpl; rewrite Hc;
    [apply Nat.ltb_lt in Hc | apply Nat.ltb_ge in Hc; assert (c = 0) as -> by lia];
    destruct (stype_eqb (s_type src) ty), (stype_eqb rty ty); simpl in *;
    try rewrite (proj2 (Nat.eqb_neq c 0)) by lia; simpl; lia.
Qed.

(** ** Stopping the strategy loop *)

Lemma run_strategies_stop {St Bt : Type} (run : St -> nat -> store -> Bt -> nat * store)
    (maxPosts : nat) (strats : list (St * option Bt)) :
  forall tot st t ys st',
  run_strategies run maxPosts tot st strats = (t, ys, st') -> 0 < maxPosts ->
  (forall k y, nth_error ys k = Some y -> 3 * maxPosts <= 5 * y -> length ys = S k) /\
  (length ys < length strats ->
   maxPosts <= t \/
   exists k y, nth_error ys k = Some y /\ length ys = S k /\ 3 * maxPosts <= 5 * y).
Proof.
  induction strats as [|[s ob] rest IH]; intros tot st t ys st' Heq Hpos; simpl in Heq.
  - inversion Heq; subst; split; [intros [|k] y Hk; discriminate | simpl; lia].
  - destruct (tot <? maxPosts) eqn:Hlt.
    2: { inversion Heq; subst; split; [intros [|k] y Hk; discriminate|].
         intros _; left; apply Nat.ltb_ge; exact Hlt. }
    destruct (match ob with None => (0, st) | Some b => run s (maxPosts - tot) st b end)
      as [y st1].
    destruct (0 <? y) eqn:Hy0.
    + destruct (_ <=? _) eqn:Hth.
      * inversion Heq; subst; apply Nat.leb_le in Hth; split.
        -- intros [|[|k]] y' Hk; simpl in Hk; [reflexivity | discriminate | discriminate].
        -- intros _; right; exists 0, y; repeat split; lia.
      * destruct (run_strategies run maxPosts (tot + y) st1 rest) as [[t' ys'] st''] eqn:Hr.
        inversion Heq; subst; apply Nat.leb_gt in Hth.
        destruct (IH _ _ _ _ _ Hr Hpos) as [IH1 IH2]; split.
        -- intros [|k] y' Hk Hle; simpl in Hk.
           ++ inversion Hk; subst; lia.
           ++ simpl; f_equal; exact (IH1 k y' Hk Hle).
        -- intros Hl; simpl in Hl.
           destruct (IH2 ltac:(lia)) as [H | (k & y' & H1 & H2 & H3)]; [left; exact H|].
           right; exists (S k), y'; simpl; auto.
    + destruct (run_strategies run maxPosts tot st1 rest) as [[t' ys'] st''] eqn:Hr.
      inversion Heq; subst; apply Nat.ltb_ge in Hy0.
      destruct (IH _ _ _ _ _ Hr Hpos) as [IH1 IH2]; split.
      * intros [|k] y' Hk Hle; simpl in Hk.
        -- inversion Hk; subst; lia.
        -- simpl; f_equal; exact (IH1 k y' Hk Hle).
      * intros Hl; simpl in Hl.
        destruct (IH2 ltac:(lia)) as [H | (k & y' & H1 & H2 & H3)]; [left; exact H|].
        right; exists (S k), y'; simpl; auto.
Qed.

Lemma attach_length {St Bt : Type} (ss : list St) : forall (os : list (option Bt)),
  length (attach ss os) = length ss.
Proof. induction ss as [|s ss IH]; intros [|o os]; simpl; rewrite ?IH; reflexivity. Qed.

(** ** Sorting a Reddit batch *)

Section Sort.

Variables (A : Type) (key : A -> Z).

Let desc (a b : A) : Prop := (key b <= key a)%Z.

Lemma insert_desc_perm (x : A) (l : list A) : Permutation (x :: l) (insert_desc key x l).
Proof.
  induction l as [|y l IH]; simpl; [reflexivity|].
  destruct (key y <? key x)%Z; [reflexivity|].
  rewrite perm_swap; constructor; exact IH.
Qed.

Lemma insert_desc_sorted (x : A) (l : list A) : Sorted desc l -> Sorted desc (insert_desc key x l).
Proof.
  induction 1 as [|y l Hs IH Hd]; simpl; [repeat constructor|].
  destruct (key y <? key x)%Z eqn:E.
  - apply Z.ltb_lt in E; constructor; [constructor; assumption | constructor; unfold desc; lia].
  - apply Z.ltb_ge in E; constructor; [exact IH|].
    destruct l as [|z l]; simpl; [constructor; unfold desc; lia|].
    destruct (key z <? key x)%Z; constructor; [unfold desc; lia|].
    inversion Hd; assumption.
Qed.

Lemma sort_desc_spec (l : list A) : forall acc, Sorted desc acc ->
  Permutation (l ++ acc) (fold_left (fun acc x => insert_desc key x acc) l acc) /\
  Sorted desc (fold_left (fun acc x => insert_desc key x acc) l acc).
Proof.
  induction l as [|x l IH]; intros acc Hs; simpl; [split; [reflexivity | exact Hs]|].
  destruct (IH (insert_desc key x acc) (insert_desc_sorted x acc Hs)) as [H1 H2].
  split; [|exact H2].
  rewrite <- H1, <- (insert_desc_perm x acc).
  apply Permutation_middle.
Qed.

End Sort.

Lemma sort_posts_spec (s : strategy) (posts : list post) :
  Permutation posts (sort_posts s posts) /\
  Sorted (fun a b => (sort_key s b <= sort_key s a)%Z) (sort_posts s posts).
Proof.
  destruct (sort_desc_spec post (sort_key s) posts [] (Sorted_nil _)) as [H1 H2].
  rewrite app_nil_r in H1; split; assumption.
Qed.

(** ** The word-count thresholds *)

Lemma Qle_bool_inject_Z (a b : Z) : Qle_bool (inject_Z a) (inject_Z b) = (a <=? b)%Z.
Proof. unfold Qle_bool, inject_Z; simpl; rewrite !Z.mul_1_r; reflexivity. Qed.

Lemma below_min_150 (total : nat) :
  below_min total 20 150 10 = (total <? 20) /\ below_min total 15 150 20 = (total <? 15).
Proof.
  unfold below_min.
  replace (Qmax (inject_Z 20) (inject_Z 150 / inject_Z 10)) with (inject_Z 20) by reflexivity.
  replace (Qmax (inject_Z 15) (inject_Z 150 / inject_Z 20)) with (inject_Z 15) by reflexivity.
  rewrite !Qle_bool_inject_Z.
  split; [destruct (Nat.ltb_spec total 20), (Z.leb_spec 20 (Z.of_nat total))
         |destruct (Nat.ltb_spec total 15), (Z.leb_spec 15 (Z.of_nat total))]; simpl; lia.
Qed.

(** ** JSON objects *)

Lemma assoc_last_app (k : string) (l1 l2 : list (string * json)) :
  assoc_last k (l1 ++ l2) =
  match assoc_last k l2 with Some w => Some w | None => assoc_last k l1 end.
Proof.
  induction l1 as [|[k' v] l1 IH]; simpl.
  - destruct (assoc_last k l2); reflexivity.
  - rewrite IH; destruct (assoc_last k l2); reflexivity.
Qed.

Lemma assoc_last_opt_kv (k k' : string) (o : option json) :
  k <> k' -> assoc_last k (opt_kv k' o) = None.
Proof.
  intros H; destruct o; simpl; [|reflexivity].
  apply String.eqb_neq in H; rewrite H; reflexivity.
Qed.

Lemma count_type_cons (ty : stype) (s : source) (l : list source) :
  count_type ty (s :: l) = (if stype_eqb (s_type s) ty then 1 else 0) + count_type ty l.
Proof. unfold count_type; simpl; destruct (stype_eqb (s_type s) ty); reflexivity. Qed.

Lemma succ_fail_type_cons (ty : stype) (r : nat * stype) (l : list (nat * stype)) :
  succ_type ty (r :: l) = succ_type ty [r] + succ_type ty l /\
  fail_type ty (r :: l) = fail_type ty [r] + fail_type ty l.
Proof.
  unfold succ_type, fail_type; simpl.
  destruct (stype_eqb (snd r) ty && (0 <? fst r)), (stype_eqb (snd r) ty && (fst r =? 0));
    split; reflexivity.
Qed.

(** The loop stopped by the cap has counted the results up to the one
    that reached it, and the sources before that one. *)
Lemma stats_loop_break (rs : list (nat * stype)) :
  forall (srcs : list source) tot ss t ss',
  stats_loop rs srcs tot ss = Some (t, ss') -> MAX_TOTAL_POSTS <= t -> tot < MAX_TOTAL_POSTS ->
  length rs = length srcs ->
  exists k, k < length rs /\
  t = tot + list_sum (map fst (firstn (S k) rs)) /\
  tot + list_sum (map fst (firstn k rs)) < MAX_TOTAL_POSTS /\
  forall ty,
  processed (stat_of ty ss') = processed (stat_of ty ss) + count_type ty (firstn k srcs) /\
  success (stat_of ty ss') = success (stat_of ty ss) + succ_type ty (firstn (S k) rs) /\
  failed (stat_of ty ss') = failed (stat_of ty ss) + fail_type ty (firstn (S k) rs).
Proof.
  induction rs as [|[c rty] rs IH]; intros srcs tot ss t ss' Hl Ht Htot Hlen.
  - simpl in Hl; inversion Hl; subst; lia.
  - destruct srcs as [|src srcs]; simpl in Hlen; [discriminate|].
    injection Hlen as Hlen.
    cbn [stats_loop] in Hl.
    assert (Hst : forall ss1,
              (if 0 <? c then update_stat rty (inc_success c) ss else update_stat rty inc_failed ss)
                = Some ss1 ->
              forall ty, processed (stat_of ty ss1) = processed (stat_of ty ss) /\
                         success (stat_of ty ss1) = success (stat_of ty ss) + succ_type ty [(c, rty)] /\
                         failed (stat_of ty ss1) = failed (stat_of ty ss) + fail_type ty [(c, rty)]).
    { intros ss1 H ty; unfold succ_type, fail_type; cbn [filter fst snd].
      destruct (0 <? c) eqn:Hc; rewrite (update_stat_of _ _ _ _ ty H).
      - apply Nat.ltb_lt in Hc; rewrite (proj2 (Nat.eqb_neq c 0)) by lia.
        destruct (stype_eqb rty ty); simpl; lia.
      - apply Nat.ltb_ge in Hc; assert (c = 0) as -> by lia.
        destruct (stype_eqb rty ty); simpl; lia. }
    destruct (if 0 <? c then update_stat rty (inc_success c) ss else update_stat rty inc_failed ss)
      as [ss1|] eqn:Hu; [|discriminate].
    specialize (Hst ss1 eq_refl).
    destruct (MAX_TOTAL_POSTS <=? tot + c) eqn:Hm.
    + injection Hl as <- <-.
      exists 0; simpl; split; [lia|]; split; [lia|]; split; [lia|].
      intros ty; destruct (Hst ty) as (A & B & C); rewrite A, B, C.
      unfold count_type; simpl; lia.
    + destruct (update_stat (s_type src) inc_processed ss1) as [ss2|] eqn:Hp; [|discriminate].
      apply Nat.leb_gt in Hm.
      destruct (IH _ _ _ _ _ Hl Ht Hm Hlen) as (k & Hk & E0 & E1 & E).
      exists (S k); simpl firstn; simpl map; simpl length; simpl list_sum; simpl in E0, E1.
      split; [lia|]; split; [lia|]; split; [lia|].
      intros ty; destruct (E ty) as (F1 & F2 & F3); destruct (Hst ty) as (A & B & C).
      rewrite (update_stat_of _ _ _ _ ty Hp) in F1, F2, F3.
      rewrite count_type_cons, (proj1 (succ_fail_type_cons ty (c, rty) _)),
        (proj2 (succ_fail_type_cons ty (c, rty) _)).
      destruct (stype_eqb (s_type src) ty); simpl in F1, F2, F3; lia.
Qed.

(** Every attempted strategy started with a total below the target. *)
Lemma run_strategies_below {St Bt : Type} (run : St -> nat -> store -> Bt -> nat * store)
    (maxPosts : nat) (strats : list (St * option Bt)) :
  forall tot st t ys st',
  run_strategies run maxPosts tot st strats = (t, ys, st') ->
  forall k, k < length ys -> tot + list_sum (firstn k ys) < maxPosts.
Proof.
  induction strats as [|[s ob] rest IH]; intros tot st t ys st' Heq k Hk; simpl in Heq.
  - inversion Heq; subst; simpl in Hk; lia.
  - destruct (tot <? maxPosts) eqn:Hlt; [|inversion Heq; subst; simpl in Hk; lia].
    apply Nat.ltb_lt in Hlt.
    destruct (match ob with None => (0, st) | Some b => run s (maxPosts - tot) st b end)
      as [y st1].
    destruct (0 <? y).
    + destruct (_ <=? _).
      * inversion Heq; subst; simpl in Hk; destruct k; simpl; lia.
      * destruct (run_strategies run maxPosts (tot + y) st1 rest) as [[t' ys'] st''] eqn:Hr.
        inversion Heq; subst.
        destruct k as [|k]; [simpl; lia|].
        simpl in Hk |- *; specialize (IH _ _ _ _ _ Hr k ltac:(lia)); lia.
    + destruct (run_strategies run maxPosts tot st1 rest) as [[t' ys'] st''] eqn:Hr.
      inversion Heq; subst.
      destruct k as [|k]; [simpl; lia|].
      simpl in Hk |- *; specialize (IH _ _ _ _ _ Hr k ltac:(lia)); lia.
Qed.

Lemma run_strategies_progressive {St Bt : Type} (run : St -> nat -> store -> Bt -> nat * store)
    (Hrun : run_ok run) (maxPosts : nat) (strats : list (St * option Bt)) (st : store)
    (t : nat) (ys : list nat) (st' : store) :
  run_strategies run maxPosts 0 st strats = (t, ys, st') -> 0 < maxPosts ->
  progressive_stop maxPosts (length strats) t ys.
Proof.
  intros H Hpos.
  pose proof (run_strategies_spec St Bt run Hrun maxPosts strats 0 st (Nat.le_0_l _)) as Hs.
  rewrite H in Hs; destruct Hs as ((_ & H1) & H2 & _).
  destruct (run_strategies_stop run maxPosts strats 0 st t ys st' H Hpos) as [Hstop Hgo].
  pose proof (run_strategies_below run maxPosts strats 0 st t ys st' H) as Hb.
  unfold progressive_stop; split; [lia|]; split; [lia|]; split; [exact Hstop|].
  split; [|exact Hgo].
  intros k Hk; specialize (Hb k Hk); lia.
Qed.

Lemma in_list_sum (y : nat) (l : list nat) : In y l -> y <= list_sum l.
Proof. induction l as [|x l IH]; simpl; [contradiction|]; intros [-> | H]; [lia | specialize (IH H); lia]. Qed.

(** Strategies that all fail leave the total and the collection as they
    are. *)
Lemma run_strategies_none {St Bt : Type} (run : St -> nat -> store -> Bt -> nat * store)
    (maxPosts : nat) (ss : list St) :
  forall (outs : list (option Bt)) tot st, Forall (fun o => o = None) outs ->
  let '(t, _, st') := run_strategies run maxPosts tot st (attach ss outs) in t = tot /\ st' = st.
Proof.
  induction ss as [|s ss IH]; intros outs tot st Hn; [destruct outs; simpl; split; reflexivity|].
  assert (Hx : exists outs', attach (s :: ss) outs = (s, None) :: attach ss outs' /\
                             Forall (fun o => o = None) outs').
  { destruct outs as [|o outs]; [exists []; split; [reflexivity | constructor]|].
    inversion Hn; subst; exists outs; split; [reflexivity | assumption]. }
  destruct Hx as (outs' & -> & Hn').
  simpl; destruct (tot <? maxPosts); [|split; reflexivity].
  specialize (IH outs' tot st Hn').
  destruct (run_strategies run maxPosts tot st (attach ss outs')) as [[t ys] st']; exact IH.
Qed.

(** *** JSON payloads *)

Lemma assoc_last_opt_kv_same (k : string) (o : option json) : assoc_last k (opt_kv k o) = o.
Proof. destruct o; simpl; [rewrite String.eqb_refl|]; reflexivity. Qed.

Lemma jor_truthy (a b : option json) : truthy_json b = true -> truthy_json (jor a b) = true.
Proof. unfold jor; destruct (truthy_json a) eqn:E; auto. Qed.

(** The title and the URL of a normalized object: its own property when
    it has one (spread last), else the fallback chain. *)
Lemma normalize_title_url (kvs : list (string * json)) :
  exists o, normalize (JObj kvs) = Some o /\
  get (Some o) "title" =
    match assoc_last "title" kvs with
    | Some w => Some w
    | None => jor (jor (assoc_last "title" kvs) (assoc_last "name" kvs))
                  (jor (assoc_last "headline" kvs) (Some (JStr "Untitled")))
    end /\
  get (Some o) "url" =
    match assoc_last "url" kvs with
    | Some w => Some w
    | None => jor (jor (assoc_last "url" kvs) (assoc_last "link" kvs))
                  (jor (jor (assoc_last "html_url" kvs) (assoc_last "permalink" kvs))
                       (Some (JStr ("#" ++ template (assoc_last "id" kvs)))))
    end.
Proof.
  eexists; split; [reflexivity|].
  cbn [get spread]; rewrite !assoc_last_app.
  rewrite (assoc_last_opt_kv "title" "tags"), (assoc_last_opt_kv "title" "author"),
    (assoc_last_opt_kv "title" "publishedAt"), (assoc_last_opt_kv "title" "summary"),
    (assoc_last_opt_kv "title" "url"), (assoc_last_opt_kv "url" "tags"),
    (assoc_last_opt_kv "url" "author"), (assoc_last_opt_kv "url" "publishedAt"),
    (assoc_last_opt_kv "url" "summary"), (assoc_last_opt_kv "url" "title") by discriminate.
  rewrite !assoc_last_opt_kv_same.
  split; [destruct (assoc_last "title" kvs); reflexivity|].
  destruct (assoc_last "url" kvs); [reflexivity|].
  match goal with |- match ?x with Some w => Some w | None => None end = _ => destruct x end;
    reflexivity.
Qed.

(** An object with a truthy URL other than ["#undefined"] and a title
    that is truthy or absent passes the filter. *)
Lemma keep_normalize (kvs : list (string * json)) (v : json) :
  assoc_last "url" kvs = Some v -> truthy_json (Some v) = true -> v <> JStr "#undefined" ->
  assoc_last "title" kvs = None \/ truthy_json (assoc_last "title" kvs) = true ->
  exists o, normalize (JObj kvs) = Some o /\ keep o = true.
Proof.
  intros Hu Hv Hne Ht.
  destruct (normalize_title_url kvs) as (o & Ho & Hot & Hou).
  exists o; split; [exact Ho|].
  unfold keep; rewrite Hot, Hou, Hu.
  replace (truthy_json (match assoc_last "title" kvs with Some w => Some w | None => _ end))
    with true.
  2: { symmetry; destruct Ht as [Ht | Ht].
       - rewrite Ht; apply jor_truthy, jor_truthy; reflexivity.
       - destruct (assoc_last "title" kvs); [exact Ht | discriminate]. }
  rewrite Hv; simpl.
  destruct v; try reflexivity.
  apply negb_true_iff, String.eqb_neq; intros ->; apply Hne; reflexivity.
Qed.

Lemma filter_all {X : Type} (f : X -> bool) (l : list X) :
  Forall (fun x => f x = true) l -> filter f l = l.
Proof. induction 1 as [|x l Hx _ IH]; simpl; [reflexivity | rewrite Hx, IH; reflexivity]. Qed.

Lemma first_array_app (o : option json) (pre : list string) (k : string) (post : list string)
    (l : list json) :
  (forall k', In k' pre -> is_array (get o k') = false) -> get o k = Some (JArr l) ->
  first_array o (pre ++ k :: post) = Some l.
Proof.
  induction pre as [|k0 pre IH]; intros Hpre Hk; simpl; [rewrite Hk; reflexivity|].
  assert (H0 := Hpre k0 (or_introl eq_refl)).
  assert (IH' := IH (fun k' Hk' => Hpre k' (or_intror Hk')) Hk).
  destruct (get o k0) as [[| | | | l0 |]|]; try discriminate; exact IH'.
Qed.

Lemma first_array_none (o : option json) (ks : list string) :
  (forall k, In k ks -> is_array (get o k) = false) -> first_array o ks = None.
Proof.
  induction ks as [|k0 ks IH]; intros Hks; simpl; [reflexivity|].
  assert (H0 := Hks k0 (or_introl eq_refl)).
  assert (IH' := IH (fun k' Hk' => Hks k' (or_intror Hk'))).
  destruct (get o k0) as [[| | | | l0 |]|]; try discriminate; exact IH'.
Qed.

Lemma route_api_batch_non_array (date_parse : string -> option Z) (v : json) :
  is_array (Some v) = false -> route_api_batch date_parse v = None.
Proof. destruct v; simpl; congruence. Qed.

Lemma forall2_types (res : list (nat * stype)) (ds : list (source * remote)) :
  Forall2 (fun r sr => snd r = s_type (fst sr) /\ (snd sr = RThrows -> fst r = 0)) res ds ->
  Forall (fun sr => s_type (fst sr) <> Manual) ds -> Forall (fun r => snd r <> Manual) res.
Proof.
  induction 1 as [|r sr res ds [Hr _] _ IH]; intros Hf; [constructor|].
  inversion Hf; subst; constructor; [congruence | auto].
Qed.

Ltac batch_ok' :=
  let s := fresh "s" in
  intros s ???; try destruct s; cbv beta iota;
  try unfold agg_processRedditPosts; try unfold agg_processRSSItems;
  apply process_batch_run_ok.

(* ------------------------------------------------------------------ *)
(** ** The claims *)

(** Claim C1: the global cap of 25 is not enforced on what is stored.
    With nine active subreddits whose first strategy each answer three
    new posts, the per-source cap is [max(3, floor(25 / 9)) = 3]; every
    fetch runs before the early-termination check of the result loop, so
    the run inserts 27 documents and reports [newPostsCount = 27]. *)
Theorem refresh_exceeds_cap :
  length nine_subreddits = 9 /\ max_posts_per_source (length nine_subreddits) = 3 /\
  length (snd (POST md5_id nine_subreddits [])) = 27 /\
  fst (POST md5_id nine_subreddits []) = Ok 27 9 3 (mkStats (mkStat 8 9 0 27) stat0 stat0) /\
  MAX_TOTAL_POSTS < 27.
Proof.
  refine (conj _ (conj _ (conj _ (conj _ _)))); try (vm_compute; reflexivity).
  unfold MAX_TOTAL_POSTS; lia.
Qed.

(** Claim C2: URLs stay unique through a run, with or without forced
    refresh, and a source is credited exactly with the documents it
    inserted (a save refused by the unique index is not counted). *)
Theorem refresh_urls_unique (md5 : string -> string) (maxPer : nat) (force : bool)
    (st st' : store) (ds : list (source * remote)) (res : list (nat * stype)) :
  run_all md5 maxPer force st ds = (res, st') -> NoDup (urls st) ->
  NoDup (urls st') /\ length st' = length st + list_sum (map fst res).
Proof.
  intros H Hnd.
  pose proof (run_all_spec md5 maxPer force ds st) as Hs; rewrite H in Hs.
  destruct Hs as (_ & _ & H3 & H4); split; [exact (H4 Hnd) | exact H3].
Qed.


(** Claim C4: every progressive strategy loop stops at a strategy whose
    yield reaches 60% of the target (exactly [5 * y >= 3 * T]), attempts
    every strategy only while the total is below the target, and stops
    early only on the target or a 60% yield: the route's Reddit (five
    strategies), RSS, generic API and Hacker News (three) fetchers with
    any target [T > 0], and the library's RSS fetcher (three) and Reddit
    fetcher (five) with [T = 50].  The library's desperate Reddit
    strategy runs exactly when the five strategies gave less than 15, so
    never after a 60% yield. *)
Theorem fetchers_progressive_stop (md5 : string -> string) (date_parse : string -> option Z)
    (src : source) (maxPosts : nat) (force : bool) (st : store) :
  0 < maxPosts ->
  (forall outs, let '(t, ys, _) := fetchRedditContent md5 src maxPosts force st outs in
                progressive_stop maxPosts 5 t ys) /\
  (forall outs, let '(t, ys, _) := fetchRSSContent md5 src maxPosts force st outs in
                progressive_stop maxPosts 3 t ys) /\
  (forall outs, let '(t, ys, _) := fetchGenericAPI md5 src maxPosts force st outs in
                progressive_stop maxPosts 3 t ys) /\
  (forall outs, let '(t, ys, _) := fetchHackerNews md5 src maxPosts force st outs in
                progressive_stop maxPosts 3 t ys) /\
  (forall outs, let '(t, ys, _) := agg_fetchRSSContent md5 date_parse src st outs in
                progressive_stop 50 3 t ys) /\
  (forall outs desperate,
   let '(t, ys, od, _) := agg_fetchRedditContent md5 src st outs desperate in
   progressive_stop 50 5 (list_sum ys) ys /\
   (od <> None <-> list_sum ys < 15) /\
   t = list_sum ys + match od with Some y => y | None => 0 end /\
   (forall y, In y ys -> 3 * 50 <= 5 * y -> od = None)).
Proof.
  intros Hpos.
  assert (Hp : forall (St Bt : Type) (run : St -> nat -> store -> Bt -> nat * store) m l,
             run_ok run -> 0 < m ->
             let '(t, ys, _) := run_strategies run m 0 st l in progressive_stop m (length l) t ys).
  { intros St Bt run m l Hrun Hm.
    destruct (run_strategies run m 0 st l) as [[t ys] st'] eqn:E.
    exact (run_strategies_progressive run Hrun m l st t ys st' E Hm). }
  split; [|split; [|split; [|split; [|split]]]].
  - intros outs; unfold fetchRedditContent.
    match goal with |- context [run_strategies ?run _ _ _ ?l] =>
      pose proof (Hp _ _ run maxPosts l ltac:(batch_ok') Hpos) as H end.
    rewrite attach_length in H; exact H.
  - intros outs; unfold fetchRSSContent.
    match goal with |- context [run_strategies ?run _ _ _ ?l] =>
      pose proof (Hp _ _ run maxPosts l ltac:(batch_ok') Hpos) as H end.
    rewrite attach_length in H; exact H.
  - intros outs; unfold fetchGenericAPI.
    match goal with |- context [run_strategies ?run _ _ _ ?l] =>
      pose proof (Hp _ _ run maxPosts l ltac:(batch_ok') Hpos) as H end.
    rewrite attach_length in H; exact H.
  - intros outs; unfold fetchHackerNews.
    match goal with |- context [run_strategies ?run _ _ _ ?l] =>
      pose proof (Hp _ _ run maxPosts l ltac:(batch_ok') Hpos) as H end.
    rewrite attach_length in H; exact H.
  - intros outs; unfold agg_fetchRSSContent.
    match goal with |- context [run_strategies ?run _ _ _ ?l] =>
      pose proof (Hp _ _ run 50 l ltac:(batch_ok') ltac:(lia)) as H end.
    rewrite attach_length in H; exact H.
  - intros outs desperate; unfold agg_fetchRedditContent.
    match goal with |- context [run_strategies ?run _ _ _ ?l] =>
      pose proof (Hp _ _ run 50 l ltac:(batch_ok') ltac:(lia)) as H;
      destruct (run_strategies run 50 0 st l) as [[t0 ys0] st1]
    end.
    rewrite attach_length in H; change (length (agg_reddit_strategies src)) with 5 in H.
    assert (Ht0 : t0 = list_sum ys0) by apply H.
    destruct (t0 <? 15) eqn:Hlt; [apply Nat.ltb_lt in Hlt | apply Nat.ltb_ge in Hlt].
    + destruct (match desperate with
                | Some posts => agg_processRedditPosts md5 src (Nat.max 2 (50 - t0)) true st1 posts
                | None => (0, st1) end) as [y st2].
      cbv beta iota zeta; rewrite <- Ht0.
      split; [exact H|]; split; [split; [intros _; exact Hlt | discriminate]|].
      split; [reflexivity|].
      intros y' Hy' Hge; apply in_list_sum in Hy'; lia.
    + cbv beta iota zeta; rewrite <- Ht0.
      split; [exact H|]; split; [split; [intros Hn; exfalso; apply Hn; reflexivity | lia]|].
      split; [lia | reflexivity].
Qed.

(** Claim C5 (as amended): with [minWordCount = 150] the length check of
    a Reddit post is [title + body >= 20] at the primary tier and
    [>= 15] at the top/month tier, so a 40-character post passes both. *)
Theorem min_words_150 (f : filters) (s : strategy) (p : post) :
  f_minWordCount f = Some 150%Z ->
  reddit_min_ok f s p =
  (if is_top_month s then 15 <=? String.length (p_title p) + opt_length (p_selftext p)
   else 20 <=? String.length (p_title p) + opt_length (p_selftext p)).
Proof.
  intros H; unfold reddit_min_ok, word_count_ok; rewrite H; simpl Z.eqb; cbv iota.
  destruct (below_min_150 (String.length (p_title p) + opt_length (p_selftext p))) as [E1 E2].
  destruct (is_top_month s); [rewrite E2 | rewrite E1]; rewrite Nat.ltb_antisym, negb_involutive;
    reflexivity.
Qed.

(** Claim C6: the generic API path of the refresh route stores the
    description as the summary without truncation: a 600-character
    description is stored whole, whatever [Date.parse] does. *)
Theorem generic_api_summary_600 (date_parse : string -> option Z) :
  let '((n, _), st') := fetchSourceWithTimeout md5_id api_source Api 5 true []
                          (RApi [route_api_batch date_parse long_payload]) in
  n = 1 /\ map (fun c => String.length (c_summary c)) st' = [600].
Proof. vm_compute; split; reflexivity. Qed.

(** Claim C7: the RSS parser of the refresh route only scans [<item>]
    blocks: an Atom document of five entries, three with a link and an
    id, gives no item and zero yield, where the library parser gives the
    three entries. *)
Theorem route_rss_drops_atom (date_parse : string -> option Z) :
  route_parseRSSXML date_parse atom_doc = [] /\ rss_strategy_items date_parse atom_doc = None /\
  fst (fst (fetchRSSContent md5_id feed_source 5 true []
              (repeat (rss_strategy_items date_parse atom_doc) 3))) = 0 /\
  map g_title (agg_parseRSSXML atom_doc) = ["Post 1"; "Post 3"; "Post 5"].
Proof. vm_compute; repeat split. Qed.


(** Claim C9 (as amended): a Reddit batch is processed in a permutation
    of the API order sorted by descending key, the key being the creation
    time for new and rising and the score for every other sort. *)
Theorem reddit_batch_order (s : strategy) (posts : list post) :
  Permutation posts (sort_posts s posts) /\
  Sorted (fun a b => (sort_key s b <= sort_key s a)%Z) (sort_posts s posts) /\
  (forall p, sort_key s p =
             if String.eqb (sortBy s) "new" || String.eqb (sortBy s) "rising"
             then p_created_utc p else p_score p).
Proof.
  destruct (sort_posts_spec s posts) as [H1 H2].
  split; [exact H1|]; split; [exact H2|].
  intros p; unfold sort_key.
  destruct (String.eqb (sortBy s) "new" || String.eqb (sortBy s) "rising"); [reflexivity|].
  destruct (String.eqb (sortBy s) "top"); reflexivity.
Qed.

(** Claim C10: a valid document whose title and URL concatenate to those
    of a stored document is refused by the unique index on
    [contentHash], whatever its URL. *)
Theorem hash_dedup_beyond_url (md5 : string -> string) (ds : list content) (e d : content) :
  In e (save_all md5 [] ds) -> c_title e ++ c_url e = c_title d ++ c_url d -> validate d = true ->
  save md5 (save_all md5 [] ds) d = inr DuplicateKeyError.
Proof.
  intros Hin Heq Hv.
  destruct (save_all_hash md5 ds [] e Hin) as [[] | Hh].
  unfold save, violates_unique; rewrite Hv; simpl.
  destruct (existsb (fun e0 => String.eqb (c_url e0) (c_url d)) (save_all md5 [] ds));
    [reflexivity|].
  assert (Hx : existsb (fun e0 => opt_string_eqb (c_hash e0) (Some (md5 (c_title d ++ c_url d))))
                 (save_all md5 [] ds) = true).
  { apply existsb_exists; exists e; split; [exact Hin|].
    rewrite Hh, Heq; simpl; apply String.eqb_refl. }
  rewrite Hx; reflexivity.
Qed.

End Facts.

(* ================================================================== *)
(** * Further properties of the code *)

Module Extras.

Import Facts.

(** ** Strings *)

Lemma str_app_assoc (a b c : string) : (a ++ b) ++ c = a ++ (b ++ c).
Proof. induction a as [|x a IH]; simpl; [reflexivity | rewrite IH; reflexivity]. Qed.

Lemma str_length_app (a b : string) : String.length (a ++ b) = String.length a + String.length b.
Proof. induction a as [|x a IH]; simpl; [reflexivity | rewrite IH; reflexivity]. Qed.

Lemma lower_char_idem (c : ascii) : lower_char (lower_char c) = lower_char c.
Proof. destruct c as [[] [] [] [] [] [] [] []]; reflexivity. Qed.

Lemma toLowerCase_idem (s : string) : toLowerCase (toLowerCase s) = toLowerCase s.
Proof.
  induction s as [|c s IH]; simpl; [reflexivity | rewrite lower_char_idem, IH; reflexivity].
Qed.

Lemma toLowerCase_app (a b : string) : toLowerCase (a ++ b) = toLowerCase a ++ toLowerCase b.
Proof. induction a as [|c a IH]; simpl; [reflexivity | rewrite IH; reflexivity]. Qed.

Lemma startsWith_iff (s p : string) : startsWith s p = true <-> exists r, s = p ++ r.
Proof.
  revert s; induction p as [|c p IH]; intros s.
  - destruct s; simpl; split; eauto.
  - destruct s as [|d s]; simpl.
    + split; [discriminate | intros [r H]; discriminate].
    + rewrite andb_true_iff, IH; split.
      * intros [Hc [r ->]]; apply Ascii.eqb_eq in Hc as ->; eauto.
      * intros [r Hr]; inversion Hr; subst; split; [apply Ascii.eqb_refl | eauto].
Qed.

Lemma includes_iff (s p : string) : includes s p = true <-> exists a b, s = a ++ p ++ b.
Proof.
  split.
  - induction s as [|c s IH]; intros H.
    + destruct p; [exists "", ""; reflexivity | discriminate].
    + change (startsWith (String c s) p || includes s p = true) in H.
      apply orb_true_iff in H as [H | H].
      * apply startsWith_iff in H as [r H]; exists "", r; exact H.
      * destruct (IH H) as [a [b ->]]; exists (String c a), b; reflexivity.
  - intros [a [b ->]]; induction a as [|c a IH]; simpl.
    + destruct p as [|d p].
      * destruct b; reflexivity.
      * apply orb_true_iff; left; apply startsWith_iff; exists b; reflexivity.
    + change (startsWith (String c (a ++ p ++ b)) p || includes (a ++ p ++ b) p = true).
      rewrite IH, orb_true_r; reflexivity.
Qed.

(** [includes] is transitive: a text that contains [p] contains every
    substring of [p]. *)
Lemma includes_trans (s p q : string) :
  includes s p = true -> includes p q = true -> includes s q = true.
Proof.
  rewrite !includes_iff; intros [a [b ->]] [c [d ->]].
  exists (a ++ c), (d ++ b); rewrite !str_app_assoc; reflexivity.
Qed.

Lemma length_rev_str (s acc : string) :
  String.length (rev_str s acc) = String.length s + String.length acc.
Proof.
  revert acc; induction s as [|c s IH]; intros acc; simpl; [reflexivity | rewrite IH; simpl; lia].
Qed.

Lemma length_trimStart (s : string) : String.length (trimStart s) <= String.length s.
Proof. induction s as [|c s IH]; simpl; [lia | destruct (is_space c); simpl; lia]. Qed.

Lemma length_trim (s : string) : String.length (trim s) <= String.length s.
Proof.
  unfold trim, trimEnd.
  rewrite length_rev_str; simpl.
  pose proof (length_trimStart (rev_str (trimStart s) "")) as H1.
  rewrite length_rev_str in H1; simpl in H1.
  pose proof (length_trimStart s); lia.
Qed.

Lemma trim_empty (s : string) : trim s <> "" -> s <> "".
Proof. intros H ->; apply H; reflexivity. Qed.

Lemma length_substring0 (s : string) (n : nat) : String.length (substring0 s n) <= n.
Proof.
  unfold substring0; revert n; induction s as [|c s IH]; intros n; destruct n; simpl; try lia.
  specialize (IH n); lia.
Qed.

(** ** Technology tags *)

(** [X1] Both [extractTechnologies] functions are case-insensitive: the
    tags of a text are those of its lower-case form. *)
Theorem extractTechnologies_case_insensitive (text : string) :
  extractTechnologies (toLowerCase text) = extractTechnologies text /\
  agg_extractTechnologies (toLowerCase text) = agg_extractTechnologies text.
Proof.
  unfold extractTechnologies, agg_extractTechnologies; rewrite toLowerCase_idem; split; reflexivity.
Qed.

(** [X2] The route tags every text mentioning blockchain with [ai] as
    well, since ["ai"] occurs inside ["blockchain"]. *)
Theorem route_blockchain_implies_ai (text : string) :
  In "blockchain" (extractTechnologies text) -> In "ai" (extractTechnologies text).
Proof.
  unfold extractTechnologies; rewrite !filter_In; intros [_ H]; split.
  - simpl; tauto.
  - apply (includes_trans _ "blockchain"); [exact H | reflexivity].
Qed.

Lemma filter_cons_true {A} (p : A -> bool) (x : A) (l : list A) :
  p x = true -> filter p (x :: l) = x :: filter p l.
Proof. intros H; simpl; rewrite H; reflexivity. Qed.

Lemma in_firstn_in {A} (x : A) (n : nat) (l : list A) : In x (firstn n l) -> In x l.
Proof.
  revert n; induction l as [|y l IH]; intros [|n]; simpl; try tauto.
  intros [H | H]; [left; exact H | right; exact (IH n H)].
Qed.

Lemma in_firstn_before {A} (a b : A) (x y : list A) (n : nat) :
  In b (firstn n (x ++ a :: y)) -> ~ In b x -> In a (firstn n (x ++ a :: y)).
Proof.
  revert n; induction x as [|z x IH]; intros n Hb Hx; destruct n as [|n]; simpl in *; try tauto.
  destruct Hb as [Hb | Hb]; [tauto|].
  right; apply IH; tauto.
Qed.

Lemma agg_techKeywords_split :
  agg_techKeywords =
  (["React"; "Vue"; "Angular"; "Node.js"; "Python"; "JavaScript"; "TypeScript";
    "Docker"; "Kubernetes"; "AWS"; "Azure"; "GCP"; "MongoDB"; "PostgreSQL";
    "Redis"; "GraphQL"; "REST"] ++
   "API" :: ["AI"; "Machine Learning"; "TensorFlow"; "PyTorch"; "Next.js"; "Express";
             "Django"; "Flask"; "FastAPI"])%list.
Proof. reflexivity. Qed.

Lemma NoDup_agg_techKeywords : NoDup agg_techKeywords.
Proof.
  unfold agg_techKeywords.
  repeat constructor; simpl; intros H; repeat destruct H as [H | H]; try discriminate H; exact H.
Qed.

(** [X3] The library keeps at most five distinct tags, and a text tagged
    [FastAPI] is always tagged [API] as well: ["api"] occurs in
    ["fastapi"] and [API] comes first in the keyword list, so the cap of
    five never keeps the one without the other. *)
Theorem agg_extractTechnologies_cap (text : string) :
  length (agg_extractTechnologies text) <= 5 /\ NoDup (agg_extractTechnologies text) /\
  (In "FastAPI" (agg_extractTechnologies text) -> In "API" (agg_extractTechnologies text)).
Proof.
  unfold agg_extractTechnologies; split; [|split].
  - apply firstn_le_length.
  - pose proof (NoDup_filter (fun tech => includes (toLowerCase text) (toLowerCase tech))
                  NoDup_agg_techKeywords) as Hnd.
    remember (filter _ agg_techKeywords) as l; clear Heql.
    revert l Hnd; generalize 5 as n; intros n l; revert n.
    induction l as [|x l IH]; intros [|n] Hnd; simpl; try constructor.
    + inversion Hnd; subst; intros Hin; apply in_firstn_in in Hin.
      exact (H1 Hin).
    + inversion Hnd; subst; apply IH; assumption.
  - intros Hin.
    assert (Hf : In "FastAPI" (filter (fun tech => includes (toLowerCase text) (toLowerCase tech))
                                      agg_techKeywords))
      by (eapply in_firstn_in; exact Hin).
    apply filter_In in Hf as [_ Hf].
    assert (Ha : (fun tech => includes (toLowerCase text) (toLowerCase tech)) "API" = true)
      by (apply (includes_trans _ _ _ Hf); reflexivity).
    rewrite agg_techKeywords_split, filter_app, (filter_cons_true _ _ _ Ha) in Hin |- *.
    apply (in_firstn_before _ "FastAPI"); [exact Hin|].
    rewrite filter_In; simpl; intros [H _]; repeat destruct H as [H | H]; try discriminate H; exact H.
Qed.

(** ** The whole Reddit document *)

Lemma valid_fields_title (d : content) : valid_fields d = true -> c_title d <> "".
Proof.
  unfold valid_fields; intros H.
  destruct (String.eqb (c_title d) "") eqn:E; simpl in H; [discriminate|].
  apply String.eqb_neq; exact E.
Qed.

Lemma length_nonempty (s : string) : s <> "" -> 1 <= String.length s.
Proof. destruct s; simpl; [congruence | lia]. Qed.

Lemma reddit_body_length (p : post) :
  match option_map trim (reddit_body p) with
  | Some c => String.length c <= opt_length (p_selftext p)
  | None => True
  end.
Proof.
  unfold reddit_body; destruct (p_selftext p) as [t|]; simpl; [|exact I].
  destruct (negb (String.eqb t "")); simpl; [apply length_trim | exact I].
Qed.

(** [X4] The document of a Reddit post passes schema validation exactly
    when its title, URL, summary, source and category do, its creation
    time gives a valid date, and the title and selftext have at most
    24000 characters together: beyond that [readingTime] exceeds 120 and
    every save raises a ValidationError (the body, at most as long as the
    selftext, then stays within 50000 characters, and the non-empty title
    makes [readingTime] at least 1). *)
Theorem reddit_doc_reading_time (src : source) (s : strategy) (p : post) (d : content) :
  reddit_mk src s p = Some d ->
  validate d =
    valid_fields d && valid_date (c_publishedAt d) &&
    (String.length (p_title p) + opt_length (p_selftext p) <=? 24000) /\
  (24000 < String.length (p_title p) + opt_length (p_selftext p) ->
   forall md5 st, save md5 st d = inr ValidationError).
Proof.
  unfold reddit_mk; destruct (reddit_should_include _ _ _); intros H; inversion H; subst; clear H.
  assert (Hv : validate (reddit_content src p) =
               valid_fields (reddit_content src p) &&
               valid_date (c_publishedAt (reddit_content src p)) &&
               (String.length (p_title p) + opt_length (p_selftext p) <=? 24000)).
  { unfold validate.
    destruct (valid_fields _) eqn:Hf; [|reflexivity].
    destruct (valid_date _); [|reflexivity].
    cbn [andb].
    apply valid_fields_title in Hf; cbn [c_title reddit_content new_content] in Hf.
    apply trim_empty, length_nonempty in Hf.
    pose proof (reddit_body_length p) as Hc.
    cbn [c_content c_readingTime reddit_content new_content].
    unfold valid_body, valid_readingTime, ceil_div200.
    remember (String.length (p_title p) + opt_length (p_selftext p)) as n eqn:En.
    pose proof (Nat.div_mod (n + 199) 200 ltac:(lia)) as Hdm.
    pose proof (Nat.mod_upper_bound (n + 199) 200 ltac:(lia)) as Hmb.
    set (q := (n + 199) / 200) in *; set (r := (n + 199) mod 200) in *.
    set (k1 := 24000) in *; set (k2 := 50000) in *.
    assert (Hk1 : k1 = 200 * 120) by reflexivity; assert (Hk2 : k2 = 500 * 100) by reflexivity.
    clearbody k1 k2.
    destruct (n <=? k1) eqn:Hn; [apply Nat.leb_le in Hn | apply Nat.leb_gt in Hn].
    - replace (1 <=? q) with true by (symmetry; apply Nat.leb_le; lia).
      replace (q <=? 120) with true by (symmetry; apply Nat.leb_le; lia).
      revert Hc; destruct (option_map trim (reddit_body p)) as [c|]; intros Hc; [|reflexivity].
      replace (String.length c <=? k2) with true by (symmetry; apply Nat.leb_le; lia).
      reflexivity.
    - replace (q <=? 120) with false by (symmetry; apply Nat.leb_gt; lia).
      rewrite !andb_false_r; reflexivity. }
  split; [exact Hv|].
  intros Hlong md5 st; unfold save; rewrite Hv.
  set (k1 := 24000) in *; assert (Hk1 : k1 = 200 * 120) by reflexivity; clearbody k1.
  replace (_ <=? k1) with false by (symmetry; apply Nat.leb_gt; lia).
  rewrite andb_false_r; reflexivity.
Qed.

(** ** Summaries of the Reddit and RSS paths *)

Lemma placeholder_length : String.length placeholder = 24.
Proof. reflexivity. Qed.

(** [X5] A document built from a Reddit post or an RSS item has a
    summary of at most 500 characters: the text is cut at 500 before the
    placeholder default and the [trim] setter. *)
Theorem reddit_rss_summary_500 (src : source) :
  (forall s p d, reddit_mk src s p = Some d -> String.length (c_summary d) <= 500) /\
  (forall it d, rss_mk src it = Some d -> String.length (c_summary d) <= 500).
Proof.
  split.
  - intros s p d; unfold reddit_mk; destruct (reddit_should_include _ _ _); [|discriminate].
    intros H; inversion H; subst; simpl.
    eapply Nat.le_trans; [apply length_trim|].
    unfold reddit_summary, or_default; destruct (p_selftext p) as [t|]; cbn [option_map].
    + destruct (String.eqb (substring0 t 500) ""); [rewrite placeholder_length; lia|].
      apply length_substring0.
    + rewrite placeholder_length; lia.
  - intros it d; unfold rss_mk; destruct (rss_should_include _ _); [|discriminate].
    intros H; inversion H; subst; simpl.
    eapply Nat.le_trans; [apply length_trim|].
    unfold rss_description, or_default.
    destruct (String.eqb (substring0 (r_description it) 500) ""); [rewrite placeholder_length; lia|].
    apply length_substring0.
Qed.

(** ** Writes to the collection *)

Lemma grows_refl (md5 : string -> string) (st : store) : grows md5 st st.
Proof. exists []; split; [reflexivity | constructor]. Qed.

Lemma grows_trans (md5 : string -> string) (st1 st2 st3 : store) :
  grows md5 st1 st2 -> grows md5 st2 st3 -> grows md5 st1 st3.
Proof.
  intros [a1 [-> H1]] [a2 [-> H2]]; exists (a2 ++ a1)%list; split.
  - rewrite app_assoc; reflexivity.
  - apply Forall_app; split; assumption.
Qed.

Lemma save_grows (md5 : string -> string) (st st' : store) (d : content) :
  save md5 st d = inl st' -> grows md5 st st'.
Proof.
  intros Hs.
  assert (Hv : validate d = true)
    by (unfold save in Hs; destruct (validate d); [reflexivity | discriminate]).
  apply save_inl in Hs as [-> _].
  exists [pre_save md5 d]; split; [reflexivity|].
  constructor; [|constructor]; split; [exact Hv | reflexivity].
Qed.

Lemma process_batch_grows (md5 : string -> string) {A} (url_of : A -> option string)
    (mk : A -> option content) (force : bool) (target : nat) (items : list A) :
  forall f st, grows md5 st (snd (process_batch md5 url_of mk force target f st items)).
Proof.
  induction items as [|it rest IH]; intros f st; simpl; [apply grows_refl|].
  destruct (target <=? f); [apply grows_refl|].
  destruct (_ && negb force); [apply IH|].
  destruct (mk it) as [d|]; [|apply IH].
  destruct (save md5 st d) as [st1|] eqn:Hs; [|apply IH].
  apply (grows_trans _ _ st1); [exact (save_grows _ _ _ _ Hs) | apply IH].
Qed.

Section Grow.

Variables (md5 : string -> string) (St Bt : Type) (run : St -> nat -> store -> Bt -> nat * store).

Hypothesis Hrun : forall s t st b, grows md5 st (snd (run s t st b)).

Lemma run_strategies_grows (maxPosts : nat) (strats : list (St * option Bt)) :
  forall tot st, let '(_, _, st') := run_strategies run maxPosts tot st strats in grows md5 st st'.
Proof.
  induction strats as [|[s ob] rest IH]; intros tot st; simpl; [apply grows_refl|].
  destruct (tot <? maxPosts); [|apply grows_refl].
  assert (Hy : grows md5 st (snd (match ob with Some b => run s (maxPosts - tot) st b
                                              | None => (0, st) end)))
    by (destruct ob; [apply Hrun | apply grows_refl]).
  destruct (match ob with Some b => run s (maxPosts - tot) st b | None => (0, st) end)
    as [y st1]; simpl in Hy.
  destruct (0 <? y).
  - destruct (_ <=? _); [exact Hy|].
    specialize (IH (tot + y) st1); destruct run_strategies as [[t ys] st'].
    exact (grows_trans _ _ _ _ Hy IH).
  - specialize (IH tot st1); destruct run_strategies as [[t ys] st'].
    exact (grows_trans _ _ _ _ Hy IH).
Qed.

End Grow.

Ltac batch_grows :=
  let s := fresh "s" in
  intros s ???; try destruct s; cbv beta iota; apply process_batch_grows.

Ltac fetch_grows :=
  match goal with
  | |- context [run_strategies ?run ?m 0 ?st ?l] =>
      let Hc := fresh "Hc" in
      pose proof (run_strategies_grows _ _ _ run ltac:(batch_grows) m l 0 st) as Hc;
      destruct (run_strategies run m 0 st l) as [[? ?] ?]; exact Hc
  end.

Lemma fetchSource_grows (md5 : string -> string) (src : source) (ty : stype) (maxPosts : nat)
    (force : bool) (st : store) (r : remote) :
  grows md5 st (snd (fetchSourceWithTimeout md5 src ty maxPosts force st r)).
Proof.
  unfold fetchSourceWithTimeout.
  destruct ty, r; try apply grows_refl.
  - unfold fetchRedditContent; fetch_grows.
  - unfold fetchRSSContent; fetch_grows.
  - destruct (String.eqb (s_name src) "Hacker News"); [apply grows_refl|].
    unfold fetchGenericAPI; fetch_grows.
  - destruct (String.eqb (s_name src) "Hacker News"); [|apply grows_refl].
    unfold fetchHackerNews; fetch_grows.
Qed.

Lemma run_all_grows (md5 : string -> string) (maxPer : nat) (force : bool)
    (ds : list (source * remote)) : forall st, grows md5 st (snd (run_all md5 maxPer force st ds)).
Proof.
  induction ds as [|[src r] ds IH]; intros st; simpl; [apply grows_refl|].
  pose proof (fetchSource_grows md5 src (s_type src) maxPer force st r) as Hf.
  destruct (fetchSourceWithTimeout md5 src (s_type src) maxPer force st r) as [res st1].
  specialize (IH st1); destruct (run_all md5 maxPer force st1 ds) as [rs st2].
  exact (grows_trans _ _ _ _ Hf IH).
Qed.


(** ** [extractItemsFromAPI] *)


(** ** Stability of the sort of a Reddit batch *)

Lemma insert_desc_last {A} (key : A -> Z) (x : A) (acc : list A) :
  Forall (fun y => (key x <= key y)%Z) acc -> insert_desc key x acc = (acc ++ [x])%list.
Proof.
  induction 1 as [|y acc Hy _ IH]; simpl; [reflexivity|].
  replace (key y <? key x)%Z with false by (symmetry; apply Z.ltb_ge; exact Hy).
  rewrite IH; reflexivity.
Qed.

Lemma sort_desc_sorted_id {A} (key : A -> Z) (l : list A) : forall acc,
  StronglySorted (fun a b => (key b <= key a)%Z) (acc ++ l) ->
  fold_left (fun acc x => insert_desc key x acc) l acc = (acc ++ l)%list.
Proof.
  induction l as [|x l IH]; intros acc Hs; simpl; [rewrite app_nil_r; reflexivity|].
  assert (Hx : Forall (fun y => (key x <= key y)%Z) acc).
  { apply Forall_forall; intros y Hy.
    clear IH; induction acc as [|z acc IHa]; [contradiction|].
    inversion Hs as [|? ? Hs1 Hs2]; subst.
    destruct Hy as [<- | Hy].
    - rewrite Forall_forall in Hs2; apply Hs2, in_or_app; right; left; reflexivity.
    - exact (IHa Hs1 Hy). }
  rewrite (insert_desc_last key x acc Hx).
  rewrite IH; [rewrite <- app_assoc; reflexivity|].
  rewrite <- app_assoc; exact Hs.
Qed.

Lemma filter_false {A} (f : A -> bool) (l : list A) :
  Forall (fun z => f z = false) l -> filter f l = [].
Proof. induction 1 as [|z l Hz _ IH]; simpl; [reflexivity | rewrite Hz; exact IH]. Qed.

Lemma insert_desc_filter {A} (key : A -> Z) (k : Z) (x : A) (l : list A) :
  StronglySorted (fun a b => (key b <= key a)%Z) l ->
  filter (fun y => Z.eqb (key y) k) (insert_desc key x l) =
  (filter (fun y => Z.eqb (key y) k) l ++ filter (fun y => Z.eqb (key y) k) [x])%list.
Proof.
  induction 1 as [|y l Hs IH Hall]; [reflexivity|].
  cbn [insert_desc]; destruct (key y <? key x)%Z eqn:E.
  - apply Z.ltb_lt in E.
    cbn [filter]; destruct (Z.eqb (key x) k) eqn:Ex.
    + apply Z.eqb_eq in Ex; subst k.
      replace (Z.eqb (key y) (key x)) with false by (symmetry; apply Z.eqb_neq; lia).
      rewrite filter_false; [reflexivity|].
      eapply Forall_impl; [|exact Hall]; intros z Hz; cbv beta in Hz; apply Z.eqb_neq; lia.
    + rewrite app_nil_r; reflexivity.
  - cbn [filter]; rewrite IH; cbn [filter].
    destruct (Z.eqb (key y) k); reflexivity.
Qed.

Lemma sort_desc_filter {A} (key : A -> Z) (k : Z) (l : list A) : forall acc,
  Sorted (fun a b => (key b <= key a)%Z) acc ->
  filter (fun y => Z.eqb (key y) k) (fold_left (fun acc x => insert_desc key x acc) l acc) =
  (filter (fun y => Z.eqb (key y) k) acc ++ filter (fun y => Z.eqb (key y) k) l)%list.
Proof.
  induction l as [|x l IH]; intros acc Hs; cbn [fold_left]; [rewrite app_nil_r; reflexivity|].
  rewrite IH by (apply insert_desc_sorted; exact Hs).
  rewrite insert_desc_filter by (apply Sorted_StronglySorted; [intros a b c ? ?; lia | exact Hs]).
  rewrite <- app_assoc; cbn [filter app].
  destruct (Z.eqb (key x) k); reflexivity.
Qed.

(** [X11] The sort of a Reddit batch is stable: the posts of any one
    key value keep their API order, so a batch the API already returns
    in descending order of the sort key (ties in any order) is processed
    in exactly the API's order. *)
Theorem sort_posts_stable (s : strategy) (posts : list post) :
  (forall k, filter (fun p => Z.eqb (sort_key s p) k) (sort_posts s posts) =
             filter (fun p => Z.eqb (sort_key s p) k) posts) /\
  (Sorted (fun a b => (sort_key s b <= sort_key s a)%Z) posts -> sort_posts s posts = posts).
Proof.
  split.
  - intros k; unfold sort_posts, sort_desc.
    rewrite (sort_desc_filter (sort_key s) k posts [] (Sorted_nil _)); reflexivity.
  - intros Hs; unfold sort_posts, sort_desc.
    apply (sort_desc_sorted_id (sort_key s) posts []).
    apply Sorted_StronglySorted; [|exact Hs].
    intros a b c Hab Hbc; lia.
Qed.

(** ** [shouldIncludeContent] *)

(** [X12] [shouldIncludeContent] rejects a content whose category is
    blocked or whose lower-cased ["title summary"] text contains a
    lower-cased exclude keyword, whatever the other filters say. *)
Theorem shouldInclude_rejections_win (f : source_filters) (c : candidate) :
  In (cd_category c) (sf_blockedCategories f) \/
  (exists k, In k (sf_excludeKeywords f) /\
             includes (toLowerCase (cd_title c ++ " " ++ cd_summary c)) (toLowerCase k) = true) ->
  shouldIncludeContent f c = false.
Proof.
  intros H; unfold shouldIncludeContent.
  destruct (bound_fails _ _ Z.ltb); [reflexivity|].
  destruct (bound_fails _ _ _); [reflexivity|].
  destruct (_ && _); [reflexivity|].
  destruct H as [Hb | [k [Hk Hi]]].
  - replace (existsb _ (sf_blockedCategories f)) with true; [reflexivity|].
    symmetry; apply existsb_exists; exists (cd_category c); split; [exact Hb | apply String.eqb_refl].
  - destruct (existsb _ (sf_blockedCategories f)); [reflexivity|].
    replace ((0 <? length (sf_excludeKeywords f)) &&
             existsb (fun keyword => includes (toLowerCase (cd_title c ++ " " ++ cd_summary c))
                                              (toLowerCase keyword)) (sf_excludeKeywords f))
      with true; [reflexivity|].
    symmetry; apply andb_true_iff; split.
    + destruct (sf_excludeKeywords f); [contradiction | reflexivity].
    + apply existsb_exists; exists k; split; assumption.
Qed.

(** [X13] The keyword filters of [shouldIncludeContent] ignore case: a
    content and its lower-cased title and summary get the same answer, and
    so do keyword lists that differ only in case. *)
Theorem shouldInclude_case_insensitive (f : source_filters) (c : candidate) :
  shouldIncludeContent f (mkCandidate (toLowerCase (cd_title c)) (toLowerCase (cd_summary c))
                                      (cd_category c) (cd_wordCount c)) = shouldIncludeContent f c /\
  shouldIncludeContent (mkSourceFilters (map toLowerCase (sf_includeKeywords f))
                                        (map toLowerCase (sf_excludeKeywords f))
                                        (sf_minWordCount f) (sf_maxWordCount f)
                                        (sf_allowedCategories f) (sf_blockedCategories f)) c =
  shouldIncludeContent f c.
Proof.
  assert (Hmap : forall (g : string -> bool) l,
            existsb (fun k => g (toLowerCase k)) (map toLowerCase l) =
            existsb (fun k => g (toLowerCase k)) l).
  { intros g l; induction l as [|k l IH]; simpl; [reflexivity|].
    rewrite toLowerCase_idem, IH; reflexivity. }
  split.
  - unfold shouldIncludeContent; cbn [cd_title cd_summary cd_category cd_wordCount].
    rewrite !toLowerCase_app, !toLowerCase_idem; reflexivity.
  - unfold shouldIncludeContent; cbn [sf_includeKeywords sf_excludeKeywords sf_minWordCount
      sf_maxWordCount sf_allowedCategories sf_blockedCategories].
    rewrite !length_map, !Hmap; reflexivity.
Qed.

(** ** [relativeTime] *)

Lemma ceil_div_bounds (a b : Z) :
  (0 < b)%Z -> (0 <= a)%Z -> (b * (ceil_div a b - 1) < a <= b * ceil_div a b)%Z.
Proof.
  intros Hb Ha; unfold ceil_div.
  pose proof (Z.div_mod (a + b - 1) b ltac:(lia)) as H.
  pose proof (Z.mod_pos_bound (a + b - 1) b Hb) as Hm.
  nia.
Qed.

(** [X14] [relativeTime] says ["Today"] or ["Yesterday"], [k days ago]
    with 2 <= k <= 5, [k weeks ago] with 1 <= k <= 5, [k months ago] with
    1 <= k <= 13, or, exactly when [publishedAt] is the current
    millisecond, ["-1 days ago"]; otherwise it falls back to a date. *)
Theorem relativeTime_labels :
  (forall now publishedAt s, relativeTime now publishedAt = Text s ->
   s = "Today" \/ s = "Yesterday" \/
   (exists k, (2 <= k <= 5)%Z /\ s = string_of_Z k ++ " days ago") \/
   (exists k, (1 <= k <= 5)%Z /\ s = string_of_Z k ++ " weeks ago") \/
   (exists k, (1 <= k <= 13)%Z /\ s = string_of_Z k ++ " months ago") \/
   (now = publishedAt /\ s = "-1 days ago")) /\
  (forall t, relativeTime t t = Text "-1 days ago").
Proof.
  split.
  - intros now pub s H; unfold relativeTime in H.
    pose proof (ceil_div_bounds (Z.abs (now - pub)) ms_per_day ltac:(unfold ms_per_day; lia)
                  (Z.abs_nonneg _)) as Hd.
    set (d := ceil_div (Z.abs (now - pub)) ms_per_day) in *.
    unfold ms_per_day in Hd.
    destruct (d =? 1)%Z eqn:E1; [injection H as <-; tauto|].
    apply Z.eqb_neq in E1.
    destruct (d =? 2)%Z eqn:E2; [injection H as <-; tauto|].
    apply Z.eqb_neq in E2.
    destruct (d <? 7)%Z eqn:E7.
    { apply Z.ltb_lt in E7; injection H as <-.
      destruct (Z.eq_dec d 0) as [E0 | E0].
      - right; right; right; right; right; split; [lia|].
        rewrite E0; reflexivity.
      - right; right; left; exists (d - 1)%Z; split; [|reflexivity].
        lia. }
    apply Z.ltb_ge in E7.
    destruct (d <? 30)%Z eqn:E30.
    { apply Z.ltb_lt in E30; injection H as <-.
      right; right; right; left; exists (ceil_div d 7); split; [|reflexivity].
      pose proof (ceil_div_bounds d 7 ltac:(lia) ltac:(lia)); lia. }
    apply Z.ltb_ge in E30.
    destruct (d <? 365)%Z eqn:E365; [|discriminate].
    apply Z.ltb_lt in E365; injection H as <-.
    right; right; right; right; left; exists (ceil_div d 30); split; [|reflexivity].
    pose proof (ceil_div_bounds d 30 ltac:(lia) ltac:(lia)); lia.
  - intros t; unfold relativeTime; rewrite Z.sub_diag; reflexivity.
Qed.

(** ** [forceRefresh] in the per-item loop *)

Lemma findByUrl_save (md5 : string -> string) (st : store) (d : content) :
  findByUrl st (c_url d) = true -> exists e, save md5 st d = inr e.
Proof.
  intros H; unfold save, violates_unique; simpl.
  destruct (negb (validate d)); [eexists; reflexivity|].
  unfold findByUrl in H; rewrite H; eexists; reflexivity.
Qed.

(** [X15] [forceRefresh] does not change what a batch stores or counts
    when the URL looked up is the URL of the document built: an item
    whose URL is stored is skipped without it, and with it the unique
    index on [url] makes its save fail, which is not counted. *)
Theorem process_batch_force_irrelevant (md5 : string -> string) {A} (url_of : A -> option string)
    (mk : A -> option content) (targetPosts : nat) (items : list A) :
  (forall it d, In it items -> mk it = Some d -> url_of it = Some (c_url d)) ->
  forall fetchedCount st,
  process_batch md5 url_of mk true targetPosts fetchedCount st items =
  process_batch md5 url_of mk false targetPosts fetchedCount st items.
Proof.
  induction items as [|it rest IH]; intros Hurl f st; simpl; [reflexivity|].
  destruct (targetPosts <=? f); [reflexivity|].
  assert (IH' := IH (fun i d Hi => Hurl i d (or_intror Hi))).
  destruct (mk it) as [d|] eqn:Hmk.
  - rewrite (Hurl it d (or_introl eq_refl) Hmk); simpl.
    destruct (findByUrl st (c_url d)) eqn:Hf; simpl.
    + destruct (findByUrl_save md5 st d Hf) as [e ->]; apply IH'.
    + destruct (save md5 st d); apply IH'.
  - destruct (match url_of it with Some u => findByUrl st u | None => false end); simpl; apply IH'.
Qed.

(** ** The per-source cap *)

(** [X16] In a refresh run every source is credited with
    at most [max(3, floor(25 / n))] documents for [n] active sources, each
    credited document is inserted, so at most [n * max(3, floor(25 / n))]
    documents are added; this stays within 25 when there are at most
    eight sources. *)
Theorem refresh_caps (md5 : string -> string) (srcs : list (source * remote)) (st st' : store)
    (res : list (nat * stype)) :
  refresh_results md5 srcs st = (res, st') ->
  length st' = length st + list_sum (map fst res) /\
  Forall (fun r => fst r <= max_posts_per_source (length srcs)) res /\
  list_sum (map fst res) <= length srcs * max_posts_per_source (length srcs) /\
  (length srcs <= 8 -> list_sum (map fst res) <= MAX_TOTAL_POSTS).
Proof.
  unfold refresh_results; intros H.
  pose proof (run_all_spec md5 (max_posts_per_source (length srcs)) true (dispatched srcs) st) as Hs.
  rewrite H in Hs; destruct Hs as (H1 & H2 & H3 & _).
  assert (Hb : list_sum (map fst res) <= length srcs * max_posts_per_source (length srcs)).
  { eapply Nat.le_trans; [apply list_sum_bound; apply Forall_map; exact H2|].
    rewrite length_map, (Forall2_length H1).
    apply Nat.mul_le_mono_r, dispatched_length. }
  split; [exact H3|]; split; [exact H2|]; split; [exact Hb|].
  intros Hn; eapply Nat.le_trans; [exact Hb | apply cap_product_small; exact Hn].
Qed.


End Extras.

(* ================================================================== *)
(** * The claims on concrete inputs *)

Module Checks.

Import Facts.

(** [refresh_urls_unique] on a subreddit run twice: the second run meets
    only stored URLs and is credited with nothing. *)
Lemma refresh_urls_unique_witness :
  NoDup (urls (snd (run_all md5_id 3 true [] twice_sub))) /\
  length (snd (run_all md5_id 3 true [] twice_sub)) =
    length (@nil content) + list_sum (map fst (fst (run_all md5_id 3 true [] twice_sub))).
Proof.
  apply (refresh_urls_unique md5_id 3 true [] (snd (run_all md5_id 3 true [] twice_sub)) twice_sub
           (fst (run_all md5_id 3 true [] twice_sub))).
  - vm_compute; reflexivity.
  - apply NoDup_nil.
Defined.



(** [fetchers_progressive_stop] on a subreddit of target 5 whose
    strategies yield 1, then 4. *)
Lemma fetchers_progressive_stop_witness :
  let '(t, ys, _) := fetchRedditContent md5_id ex_sub 5 true [] two_batches in
  progressive_stop 5 5 t ys.
Proof.
  apply (proj1 (fetchers_progressive_stop md5_id (fun _ => None) ex_sub 5 true [] ltac:(lia))).
Defined.

(** [min_words_150] on the 40-character post at the primary tier. *)
Lemma min_words_150_witness :
  reddit_min_ok min150 primary_hot post40 =
  (if is_top_month primary_hot
   then 15 <=? String.length (p_title post40) + opt_length (p_selftext post40)
   else 20 <=? String.length (p_title post40) + opt_length (p_selftext post40)).
Proof. apply (min_words_150 min150 primary_hot post40); reflexivity. Defined.

(** The 40-character post passes the filters of the primary hot/day
    tier of a source with [minWordCount = 150]. *)
Lemma post40_passes_primary :
  String.length (p_title post40) + opt_length (p_selftext post40) = 40 /\
  f_minWordCount min150 = Some 150%Z /\ is_top_month primary_hot = false /\
  reddit_min_ok min150 primary_hot post40 = true /\
  reddit_should_include min150 primary_hot post40 = true.
Proof. vm_compute; repeat split. Qed.



(** A hot batch is processed by score, not in the order of the API. *)
Lemma hot_batch_by_score :
  sort_posts primary_hot [low_post; high_post] = [high_post; low_post] /\
  spec_batch_order primary_hot [low_post; high_post] = [low_post; high_post].
Proof. vm_compute; split; reflexivity. Qed.

(** [hash_dedup_beyond_url] on ["ab" ++ "c"] stored and ["a" ++ "bc"]
    saved: different URLs, refused. *)
Lemma hash_dedup_beyond_url_witness :
  save md5_id (save_all md5_id [] [doc_ab_c]) doc_a_bc = inr DuplicateKeyError /\
  c_url doc_a_bc <> c_url doc_ab_c.
Proof.
  split.
  - apply (hash_dedup_beyond_url md5_id [doc_ab_c] (pre_save md5_id doc_ab_c) doc_a_bc).
    + vm_compute; left; reflexivity.
    + reflexivity.
    + reflexivity.
  - vm_compute; discriminate.
Defined.

End Checks.

(* ================================================================== *)
(** * The further properties at concrete inputs *)

Module ExtraChecks.

Import Extras.

(** A text mentioning blockchain gets both tags. *)
Lemma route_blockchain_implies_ai_witness :
  In "blockchain" (extractTechnologies chain_text) /\ In "ai" (extractTechnologies chain_text).
Proof.
  assert (H : In "blockchain" (extractTechnologies chain_text)) by (vm_compute; auto).
  split; [exact H | apply (route_blockchain_implies_ai chain_text H)].
Defined.

(** The 24001-character self post is built into a document that no save
    accepts. *)
Lemma reddit_doc_reading_time_witness :
  reddit_mk ex_sub primary_hot long_post = Some (reddit_content ex_sub long_post) /\
  save md5_id [] (reddit_content ex_sub long_post) = inr ValidationError.
Proof.
  assert (Hinc : reddit_should_include (s_filters ex_sub) primary_hot long_post = true)
    by (vm_compute; reflexivity).
  assert (Hd : reddit_mk ex_sub primary_hot long_post = Some (reddit_content ex_sub long_post))
    by (unfold reddit_mk; rewrite Hinc; reflexivity).
  destruct (reddit_doc_reading_time ex_sub primary_hot long_post _ Hd) as [_ Hs].
  split; [exact Hd|].
  apply Hs; apply Nat.ltb_lt; vm_compute; reflexivity.
Defined.


(** Scores 5 then 1 under the hot sort: the batch keeps its order. *)
Lemma sort_posts_stable_witness :
  sort_posts primary_hot [high_post; low_post] = [high_post; low_post].
Proof.
  apply (proj2 (sort_posts_stable primary_hot [high_post; low_post])).
  repeat constructor; vm_compute; discriminate.
Defined.

(** An included Rust post that mentions hiring is rejected. *)
Lemma shouldInclude_rejections_win_witness :
  shouldIncludeContent rust_filters rust_hiring = false.
Proof.
  apply shouldInclude_rejections_win; right; exists "hiring"; split.
  - left; reflexivity.
  - vm_compute; reflexivity.
Defined.

(** A Reddit batch whose first post is stored: the same result with and
    without [forceRefresh]. *)
Lemma process_batch_force_irrelevant_witness :
  process_batch md5_id (fun p => Some (p_url p)) (reddit_mk ex_sub primary_hot) true 5 0 stored_first
    (map (ex_post 1) [0; 1; 2]) =
  process_batch md5_id (fun p => Some (p_url p)) (reddit_mk ex_sub primary_hot) false 5 0 stored_first
    (map (ex_post 1) [0; 1; 2]).
Proof.
  apply process_batch_force_irrelevant.
  intros it d Hin Hmk; simpl in Hin.
  destruct Hin as [<- | [<- | [<- | []]]]; vm_compute in Hmk; injection Hmk as <-; reflexivity.
Defined.

(** [refresh_caps] on a feed, a subreddit and a broken API source. *)
Lemma refresh_caps_witness :
  length (snd (refresh_results md5_id small_run [])) =
    length (@nil content) + list_sum (map fst (fst (refresh_results md5_id small_run []))) /\
  Forall (fun r => fst r <= max_posts_per_source (length small_run))
    (fst (refresh_results md5_id small_run [])) /\
  list_sum (map fst (fst (refresh_results md5_id small_run []))) <=
    length small_run * max_posts_per_source (length small_run) /\
  (length small_run <= 8 ->
   list_sum (map fst (fst (refresh_results md5_id small_run []))) <= MAX_TOTAL_POSTS).
Proof.
  apply (refresh_caps md5_id small_run [] (snd (refresh_results md5_id small_run []))
           (fst (refresh_results md5_id small_run []))).
  vm_compute; reflexivity.
Defined.

End ExtraChecks.
